(** * Authentication core and calculation factory: a shallow embedding

    The development follows the Python sources
    - [app/factory/calculation_factory.py]
    - [app/auth/security.py]
    - [app/auth/dependencies.py]
    - [app/models/user_model.py]

    Python values, exceptions and [try]/[except] are modelled first, then
    each source function is transcribed, then the properties are proved. *)

From Stdlib Require Import ZArith Ascii String List Bool Lia Floats.
From stdpp Require Import base option list gmap strings fin_maps.

Local Open Scope string_scope.
Local Open Scope Z_scope.

#[local] Set Warnings "-clear-no-such-hyp".

(** ** Python exceptions *)

Module Py.

(** The exception classes the sources raise, catch or receive from the
    [jwt] and [passlib] libraries.  Every class derives from [Exception]
    (signals that bypass [except Exception] are not modelled). *)
Inductive exc_class : Type :=
  | Exception
  | ValueError
  | TypeError
  | RuntimeError
  | ArithmeticError
  | OverflowError
  | AttributeError
  | PyJWTError
  | InvalidTokenError
  | DecodeError
  | InvalidSignatureError
  | ExpiredSignatureError
  | ImmatureSignatureError
  | InvalidAlgorithmError
  | InvalidKeyError.

#[export] Instance exc_class_eq_dec : EqDecision exc_class.
Proof. solve_decision. Defined.

(** Direct base class ([None] for the root). *)
Definition base_class (c : exc_class) : option exc_class :=
  match c with
  | Exception => None
  | ValueError | TypeError | RuntimeError | ArithmeticError
  | AttributeError | PyJWTError => Some Exception
  | OverflowError => Some ArithmeticError
  | InvalidTokenError | InvalidKeyError => Some PyJWTError
  | DecodeError | ExpiredSignatureError | ImmatureSignatureError
  | InvalidAlgorithmError => Some InvalidTokenError
  | InvalidSignatureError => Some DecodeError
  end.

Fixpoint issubclass_upto (depth : nat) (c d : exc_class) : bool :=
  bool_decide (c = d) ||
  match depth, base_class c with
  | S depth', Some b => issubclass_upto depth' b d
  | _, _ => false
  end.

(** The hierarchy above is four levels deep. *)
Definition issubclass : exc_class -> exc_class -> bool := issubclass_upto 4.

(** A raised exception: an ordinary one carries its class and message,
    FastAPI's [HTTPException] its status code and detail.  [HTTPException]
    derives from [Exception] only. *)
Inductive exn : Type :=
  | Exc (cls : exc_class) (msg : string)
  | HTTPException (status_code : Z) (detail : string).

(** [isinstance e c], as an [except c:] clause tests it. *)
Definition isinstance (e : exn) (c : exc_class) : bool :=
  match e with
  | Exc cls _ => issubclass cls c
  | HTTPException _ _ => bool_decide (c = Exception)
  end.

(** The outcome of running a Python function. *)
Inductive result (A : Type) : Type :=
  | Return (a : A)
  | Raise (e : exn).
Arguments Return {A} a.
Arguments Raise {A} e.

Definition bind {A B} (r : result A) (k : A -> result B) : result B :=
  match r with
  | Return a => k a
  | Raise e => Raise e
  end.

(** [try: body  except c1: h1  except c2: h2 ...]: the first clause whose
    class matches handles the exception; with no match it propagates. *)
Fixpoint handle {A} (clauses : list (exc_class * (exn -> result A)))
    (e : exn) : result A :=
  match clauses with
  | [] => Raise e
  | (c, h) :: rest => if isinstance e c then h e else handle rest e
  end.

Definition try_except {A} (body : result A)
    (clauses : list (exc_class * (exn -> result A))) : result A :=
  match body with
  | Return a => Return a
  | Raise e => handle clauses e
  end.

Definition HTTP_401_UNAUTHORIZED : Z := 401.
Definition HTTP_400_BAD_REQUEST : Z := 400.

(** [HTTPException(status_code=status.HTTP_401_UNAUTHORIZED, detail=...)]. *)
Definition unauthorized (detail : string) : exn :=
  HTTPException HTTP_401_UNAUTHORIZED detail.

End Py.

(** Sequencing is written [x ← r; k] with stdpp's monad notation. *)
#[export] Instance result_ret : MRet Py.result := @Py.Return.
#[export] Instance result_bind : MBind Py.result :=
  fun A B k r => Py.bind r k.

(** ** Python strings

    A [str] is modelled as a [string] whose characters are the code points
    0..255; [str.strip()] and [str.lower()] are given for that range. *)

Module PyStr.

(** [str.isspace] on one code point below 256: TAB..CR, FS..US, SPACE,
    NEL and NBSP. *)
Definition is_space (c : ascii) : bool :=
  let n := N_of_ascii c in
  ((9 <=? n) && (n <=? 13) || (28 <=? n) && (n <=? 32) ||
   (n =? 133) || (n =? 160))%N.

(** [str.lower] on one code point below 256: A..Z and the Latin-1 capitals
    (all of 192..222 but the multiplication sign 215) move up by 32. *)
Definition lower_char (c : ascii) : ascii :=
  let n := N_of_ascii c in
  if ((65 <=? n) && (n <=? 90) ||
      (192 <=? n) && (n <=? 222) && negb (n =? 215))%N
  then ascii_of_N (n + 32) else c.

Fixpoint lower (s : string) : string :=
  match s with
  | EmptyString => EmptyString
  | String c s' => String (lower_char c) (lower s')
  end.

Fixpoint lstrip (s : string) : string :=
  match s with
  | EmptyString => EmptyString
  | String c s' => if is_space c then lstrip s' else s
  end.

Fixpoint rstrip (s : string) : string :=
  match s with
  | EmptyString => EmptyString
  | String c s' =>
      match rstrip s' with
      | EmptyString => if is_space c then EmptyString else String c EmptyString
      | r => String c r
      end
  end.

Definition strip (s : string) : string := rstrip (lstrip s).

(** Strings made of whitespace only (the empty string included). *)
Fixpoint all_space (s : string) : bool :=
  match s with
  | EmptyString => true
  | String c s' => is_space c && all_space s'
  end.

End PyStr.

(** ** [app/factory/calculation_factory.py] *)

Module Factory.

Import Py.

(** The four operation classes; an instance has no state, so an instance
    is its class. *)
Inductive operation : Type :=
  | AddOperation
  | SubtractOperation
  | MultiplyOperation
  | DivideOperation.

#[export] Instance operation_eq_dec : EqDecision operation.
Proof. solve_decision. Defined.

(** [compute(a: float, b: float) -> float] of each class. *)
Definition AddOperation_compute (a b : float) : result float :=
  Return (a + b)%float.

Definition SubtractOperation_compute (a b : float) : result float :=
  Return (a - b)%float.

Definition MultiplyOperation_compute (a b : float) : result float :=
  Return (a * b)%float.

Definition DivideOperation_compute (a b : float) : result float :=
  if (b =? 0)%float then Raise (Exc ValueError "Division by zero")
  else Return (a / b)%float.

Definition compute (op : operation) : float -> float -> result float :=
  match op with
  | AddOperation => AddOperation_compute
  | SubtractOperation => SubtractOperation_compute
  | MultiplyOperation => MultiplyOperation_compute
  | DivideOperation => DivideOperation_compute
  end.

(** The synonym table, in the order of the dict literal. *)
Definition OPERATIONS_items : list (string * operation) :=
  [ ("add", AddOperation);
    ("addition", AddOperation);
    ("plus", AddOperation);
    ("subtract", SubtractOperation);
    ("sub", SubtractOperation);
    ("minus", SubtractOperation);
    ("subtraction", SubtractOperation);
    ("multiply", MultiplyOperation);
    ("mul", MultiplyOperation);
    ("times", MultiplyOperation);
    ("multiplication", MultiplyOperation);
    ("divide", DivideOperation);
    ("div", DivideOperation);
    ("division", DivideOperation) ].

Definition OPERATIONS : gmap string operation := list_to_map OPERATIONS_items.

(** [CalculationFactory.create(op_type)]. *)
Definition create (op_type : string) : result operation :=
  let key := PyStr.lower (PyStr.strip op_type) in
  match OPERATIONS !! key with
  | None => Raise (Exc ValueError "Unsupported calculation type")
  | Some cls => Return cls
  end.

(** The enumerated synonyms of each canonical operation, grouped as the
    headings of the table group them; compared with [OPERATIONS] below. *)
Definition synonyms (op : operation) : list string :=
  match op with
  | AddOperation => ["add"; "addition"; "plus"]
  | SubtractOperation => ["subtract"; "sub"; "minus"; "subtraction"]
  | MultiplyOperation => ["multiply"; "mul"; "times"; "multiplication"]
  | DivideOperation => ["divide"; "div"; "division"]
  end.

End Factory.

(** ** Python values

    The values that flow through the authentication code untyped: function
    arguments tested with [isinstance], and the entries of a claims
    mapping.  Nested mappings and non-integral numbers are not needed by
    any function below and are left out. *)

Module PyVal.

Import Py.

#[warnings="-register-all"]
Inductive value : Type :=
  | VNone
  | VBool (b : bool)
  | VInt (n : Z)
  | VStr (s : string)
  | VDatetime (micros : Z)
  | VList (items : list value).

(** Truth value, as [if not x] tests it. *)
Definition truthy (v : value) : bool :=
  match v with
  | VNone => false
  | VBool b => b
  | VInt n => negb (n =? 0)%Z
  | VStr s => negb (bool_decide (s = ""))
  | VDatetime _ => true
  | VList items => negb (bool_decide (items = []))
  end.

Definition is_str (v : value) : bool :=
  match v with VStr _ => true | _ => false end.

Definition digit_of (c : ascii) : option Z :=
  let n := N_of_ascii c in
  if ((48 <=? n) && (n <=? 57))%N then Some (Z.of_N n - 48) else None.

(** Digits of a decimal literal, single underscores allowed between
    digits; returns the value and the number of digits read. *)
Fixpoint parse_digits (acc : Z) (count : nat) (after_digit : bool)
    (s : string) : option (Z * nat) :=
  match s with
  | EmptyString => if after_digit then Some (acc, count) else None
  | String c s' =>
      match digit_of c with
      | Some d => parse_digits (acc * 10 + d) (S count) true s'
      | None =>
          if bool_decide (c = "_"%char) && after_digit
          then parse_digits acc count false s'
          else None
      end
  end.

(** The interpreter's default bound on the digits of a converted string. *)
Definition int_max_str_digits : nat := 4300.

(** [int(s)] for a [str]: surrounding whitespace, an optional sign, then
    the digits. *)
Definition int_of_str (s : string) : option Z :=
  let body := PyStr.strip s in
  let '(negative, digits) :=
    match body with
    | String "-" rest => (true, rest)
    | String "+" rest => (false, rest)
    | _ => (false, body)
    end in
  match parse_digits 0 0 false digits with
  | Some (n, count) =>
      if (count <=? int_max_str_digits)%nat
      then Some (if negative : bool then - n else n)
      else None
  | None => None
  end.

(** [int(v)]; the messages of the two failures are abbreviated. *)
Definition int_of (v : value) : result Z :=
  match v with
  | VBool b => Return (if b then 1 else 0)
  | VInt n => Return n
  | VStr s =>
      match int_of_str s with
      | Some n => Return n
      | None => Raise (Exc ValueError "invalid literal for int() with base 10")
      end
  | VNone | VDatetime _ | VList _ =>
      Raise (Exc TypeError "int() argument must be a string or a real number")
  end.

(** A claims mapping: a [dict] with string keys. *)
Abbreviation claims := (gmap string value).

(** [d.get(key)]: [None] when the key is absent. *)
Definition dict_get (d : claims) (key : string) : value :=
  default VNone (d !! key).

End PyVal.

(** ** Time

    A [datetime] is its number of microseconds since the epoch, a
    [timedelta] a number of microseconds. *)

Module PyTime.

Import Py.

Definition timedelta_minutes (m : Z) : Z := m * 60 * 1000000.

(** [datetime.min] and [datetime.max]. *)
Definition datetime_min : Z := -62135596800 * 1000000.
Definition datetime_max : Z := 253402300799 * 1000000 + 999999.

(** [t + delta] on a [datetime]. *)
Definition datetime_add (t delta : Z) : result Z :=
  let t' := t + delta in
  if (datetime_min <=? t') && (t' <=? datetime_max) then Return t'
  else Raise (Exc OverflowError "date value out of range").

End PyTime.

(** ** External collaborators

    The configuration object, the [passlib] hashing context and the [jwt]
    library are interfaces of the sources; an implementation of each is a
    parameter of everything below. *)

Module Env.

Import Py PyVal.

(** [app.core.config.settings], the three fields [security.py] reads. *)
Class Settings : Type := {
  SECRET_KEY : string;
  ALGORITHM : string;
  ACCESS_TOKEN_EXPIRE_MINUTES : Z
}.

(** [passlib.context.CryptContext]: [hash] draws a salt, shown here as an
    argument; both calls may raise. *)
Class CryptContext : Type := {
  salt : Type;
  ctx_hash : salt -> string -> result string;
  ctx_verify : string -> string -> result bool
}.

(** What the hashing scheme guarantees: a digest it produced verifies
    against the password it was produced from. *)
Class CryptContextSound (ctx : CryptContext) : Prop := {
  ctx_verify_hash :
    forall (r : salt) (p d : string),
      ctx_hash r p = Return d -> ctx_verify p d = Return true
}.

(** The [jwt] module: [encode(payload, key, algorithm)] and
    [decode(token, key, algorithms)]; [decode] reads the clock, an
    argument here.  [jwt_signed] tells whether a token carries a
    signature valid for a key and an algorithm. *)
Class JwtLib : Type := {
  jwt_encode : claims -> string -> string -> result string;
  jwt_decode : Z -> string -> string -> list string -> result claims;
  jwt_signed : string -> string -> string -> bool
}.

(** What [jwt.decode] guarantees of a token it returns claims for: the
    signature is valid for the key under one of the allowed algorithms,
    and an integer [exp] claim (seconds) lies after the clock. *)
Class JwtLibSound (lib : JwtLib) : Prop := {
  jwt_decode_signed :
    forall now token key algorithms c,
      jwt_decode now token key algorithms = Return c ->
      exists alg, alg ∈ algorithms /\ jwt_signed token key alg = true;
  jwt_decode_unexpired :
    forall now token key algorithms c e,
      jwt_decode now token key algorithms = Return c ->
      c !! "exp" = Some (VInt e) ->
      now < e * 1000000
}.

End Env.

(** ** [app/auth/security.py] *)

Module Security.

Import Py PyVal PyTime Env.

Section WithEnv.

Context {settings : Settings} {pwd_context : CryptContext} {jwt : JwtLib}.

(** [hash_password(password)]; [r] is the salt the context draws. *)
Definition hash_password (r : salt) (password : value) : result string :=
  match password with
  | VStr s =>
      if negb (truthy (VStr (PyStr.strip s)))
      then Raise (Exc ValueError "Password must be a non-empty string")
      else
        try_except (ctx_hash r s)
          [(Exception, fun _ => Raise (Exc RuntimeError "Password hashing failed"))]
  | _ => Raise (Exc ValueError "Password must be a non-empty string")
  end.

(** [verify_password(plain, hashed)]. *)
Definition verify_password (plain hashed : value) : result bool :=
  match plain, hashed with
  | VStr p, VStr h =>
      try_except (ctx_verify p h) [(Exception, fun _ => Return false)]
  | _, _ => Return false
  end.

(** The store of [dict] objects: a mapping is passed by reference, so
    [create_access_token] receives the address of the caller's [dict]. *)
Abbreviation heap := (gmap positive claims).

(** [expires_delta or timedelta(minutes=ACCESS_TOKEN_EXPIRE_MINUTES)]. *)
Definition effective_delta (expires_delta : option Z) : Z :=
  match expires_delta with
  | Some d => if (d =? 0)%Z then timedelta_minutes ACCESS_TOKEN_EXPIRE_MINUTES else d
  | None => timedelta_minutes ACCESS_TOKEN_EXPIRE_MINUTES
  end.

(** The body of the [try] of [create_access_token], statement by
    statement, threading the store. *)
Definition create_access_token_body (now : Z) (h : heap) (data : positive)
    (expires_delta : option Z) : result string * heap :=
  (* payload = data.copy() *)
  match h !! data with
  | None => (Raise (Exc AttributeError "object has no attribute 'copy'"), h)
  | Some d =>
      let payload := fresh (dom h) in
      let h1 := <[payload := d]> h in
      (* expire = datetime.utcnow() + (...) *)
      match datetime_add now (effective_delta expires_delta) with
      | Raise e => (Raise e, h1)
      | Return expire =>
          (* payload.update({"exp": expire}) *)
          let h2 := alter (insert "exp" (VDatetime expire)) payload h1 in
          (* return jwt.encode(payload, SECRET_KEY, algorithm=ALGORITHM) *)
          match h2 !! payload with
          | Some p => (jwt_encode p SECRET_KEY ALGORITHM, h2)
          | None => (Raise (Exc AttributeError "no such object"), h2)
          end
      end
  end.

(** [create_access_token(data, expires_delta=None)]. *)
Definition create_access_token (now : Z) (h : heap) (data : positive)
    (expires_delta : option Z) : result string * heap :=
  let '(r, h') := create_access_token_body now h data expires_delta in
  (try_except r
     [(Exception, fun _ => Raise (Exc RuntimeError "JWT creation failed"))],
   h').

(** [decode_access_token(token)]. *)
Definition decode_access_token (now : Z) (token : string) : result claims :=
  try_except (jwt_decode now token SECRET_KEY [ALGORITHM])
    [ (ExpiredSignatureError,
       fun _ => Raise (Exc RuntimeError "Invalid or expired token"));
      (InvalidTokenError,
       fun _ => Raise (Exc RuntimeError "Invalid or expired token"));
      (Exception,
       fun _ => Raise (Exc RuntimeError "Token decode failure")) ].

End WithEnv.

End Security.

(** ** [app/models/user_model.py] *)

Module UserModel.

(** A row of the [users] table (the columns of [User]; timestamps are
    microseconds since the epoch). *)
Record User : Type := {
  id : Z;
  username : string;
  email : string;
  first_name : string;
  last_name : string;
  is_active : bool;
  password_hash : string;
  created_at : Z;
  updated_at : Z
}.

(** The table seen through a session: its rows in the order a query
    returns them. *)
Abbreviation Session := (list User).

(** The integers an [INTEGER] column of the store can hold and be
    compared with. *)
Definition store_int (n : Z) : Prop := - 2 ^ 63 <= n < 2 ^ 63.

(** [db.query(User).filter(cond).first()]. *)
Definition query_first (db : Session) (cond : User -> bool) : option User :=
  head (filter (fun u => cond u = true) db).

End UserModel.

(** ** [app/auth/dependencies.py] *)

Module Dependencies.

Import Py PyVal PyTime Env UserModel.

Section WithEnv.

Context {settings : Settings} {pwd_context : CryptContext} {jwt : JwtLib}.

(** [create_access_token(data)]: the wrapper around
    [security.create_access_token]. *)
Definition create_access_token (now : Z) (h : gmap positive claims)
    (data : positive) : result string * gmap positive claims :=
  Security.create_access_token now h data None.

(** [verify_access_token(token)]. *)
Definition verify_access_token (now : Z) (token : string) : result claims :=
  try_except (Security.decode_access_token now token)
    [ (RuntimeError,
       fun _ => Raise (HTTPException HTTP_401_UNAUTHORIZED
                         "Invalid or expired token")) ].

(** [authenticate_user(db, identifier, password)]. *)
Definition authenticate_user (db : Session) (identifier : string)
    (password : value) : result (option User) :=
  let user :=
    query_first db
      (fun u => bool_decide (username u = identifier)
                || bool_decide (email u = identifier)) in
  match user with
  | None => Return None
  | Some u =>
      ok ← Security.verify_password password (VStr (password_hash u));
      if negb ok then Return None else Return (Some u)
  end.

(** [get_current_user(token, db)]; an absent token is [None]. *)
Definition get_current_user (now : Z) (token : option string)
    (db : Session) : result User :=
  (* 1. Missing token *)
  match token with
  | None =>
      Raise (HTTPException HTTP_401_UNAUTHORIZED "Invalid or expired token")
  | Some t =>
      if negb (truthy (VStr t))
      then Raise (HTTPException HTTP_401_UNAUTHORIZED
                    "Invalid or expired token")
      else
        (* 2. Decode *)
        payload ←
          try_except (Security.decode_access_token now t)
            [ (RuntimeError,
               fun _ => Raise (HTTPException HTTP_401_UNAUTHORIZED
                                 "Invalid or expired token")) ];
        (* 3. Missing "sub" field *)
        let sub := dict_get payload "sub" in
        if negb (truthy sub)
        then Raise (HTTPException HTTP_401_UNAUTHORIZED
                      "Missing user id in token")
        else
          (* 4. User lookup *)
          n ← int_of sub;
          match query_first db (fun u => bool_decide (id u = n)) with
          | None =>
              Raise (HTTPException HTTP_401_UNAUTHORIZED "User not found")
          | Some user => Return user
          end
  end.

End WithEnv.

(** The outcome table of the Session Guard as the specification words
    it, its five steps in order; [decoded] is what the Token Codec makes
    of the token and [resolve] the account lookup by subject. *)
Definition session_guard_table (token : option string)
    (decoded : string -> option claims)
    (resolve : value -> option User) : result User :=
  match token with
  | None | Some "" =>
      Raise (HTTPException HTTP_401_UNAUTHORIZED "missing or invalid token")
  | Some t =>
      match decoded t with
      | None =>
          Raise (HTTPException HTTP_401_UNAUTHORIZED
                   "invalid or expired token")
      | Some c =>
          if negb (truthy (dict_get c "sub"))
          then Raise (HTTPException HTTP_401_UNAUTHORIZED "missing subject")
          else
            match resolve (dict_get c "sub") with
            | None =>
                Raise (HTTPException HTTP_401_UNAUTHORIZED
                         "account not found")
            | Some u => Return u
            end
      end
  end.

End Dependencies.

(** ** A concrete environment

    One implementation of each collaborator, small enough to evaluate:
    the default settings of [app/core/config.py], a salted hashing context
    and a token library over a fixed set of tokens.  The theorems are
    instantiated on it. *)

Module Demo.

Import Py PyVal Env UserModel.

#[export] Instance settings : Settings := {|
  SECRET_KEY := "super_secret_key_123";
  ALGORITHM := "HS256";
  ACCESS_TOKEN_EXPIRE_MINUTES := 30
|}.

Fixpoint has_nul (s : string) : bool :=
  match s with
  | EmptyString => false
  | String c s' => bool_decide (c = "000"%char) || has_nul s'
  end.

(** The digest is the salt mark, a dollar sign and the password; a
    password with a NUL character is refused, as bcrypt refuses it. *)
Definition demo_hash (r : bool) (p : string) : result string :=
  if has_nul p then Raise (Exc ValueError "NULL byte in password")
  else Return (String (if r then "a" else "b")%char (String "$"%char p)).

Definition demo_verify (p d : string) : result bool :=
  match d with
  | String _ (String "$" q) => Return (bool_decide (q = p))
  | _ => Raise (Exc ValueError "hash could not be identified")
  end.

#[export] Instance pwd_context : CryptContext := {|
  salt := bool;
  ctx_hash := demo_hash;
  ctx_verify := demo_verify
|}.

(** A token of the fixed set: the key and algorithm that signed it and
    the claims it carries. *)
Record signed_token : Type := {
  st_key : string;
  st_alg : string;
  st_claims : claims
}.

Definition issued (c : claims) : signed_token :=
  {| st_key := "super_secret_key_123"; st_alg := "HS256"; st_claims := c |}.

Definition demo_tokens : gmap string signed_token :=
  list_to_map
    [ ("tok.alice", issued {[ "sub" := VStr "1"; "exp" := VInt 2000000000 ]});
      ("tok.bob", issued {[ "sub" := VStr "2"; "exp" := VInt 2000000000 ]});
      ("tok.ghost", issued {[ "sub" := VStr "999"; "exp" := VInt 2000000000 ]});
      ("tok.nosub", issued {[ "exp" := VInt 2000000000 ]});
      ("tok.expired", issued {[ "sub" := VStr "1"; "exp" := VInt 1000 ]});
      ("tok.forged",
       {| st_key := "another_key"; st_alg := "HS256";
          st_claims := {[ "sub" := VStr "1"; "exp" := VInt 2000000000 ]} |}) ].

Definition demo_signed (token key alg : string) : bool :=
  match demo_tokens !! token with
  | Some t => bool_decide (st_key t = key) && bool_decide (st_alg t = alg)
  | None => false
  end.

(** Decoding: the token ["crash"] makes the library fail internally, an
    unknown token is malformed, then signature and expiry are checked. *)
Definition demo_decode (now : Z) (token key : string)
    (algorithms : list string) : result claims :=
  if bool_decide (token = "crash")
  then Raise (Exc ValueError "broken decode")
  else
    match demo_tokens !! token with
    | None => Raise (Exc DecodeError "Not enough segments")
    | Some t =>
        if negb (bool_decide (st_key t = key)
                 && bool_decide (st_alg t ∈ algorithms))
        then Raise (Exc InvalidSignatureError "Signature verification failed")
        else
          match st_claims t !! "exp" with
          | Some (VInt e) =>
              if e * 1000000 <=? now
              then Raise (Exc ExpiredSignatureError "Signature has expired")
              else Return (st_claims t)
          | _ => Return (st_claims t)
          end
    end.

Definition demo_encode (c : claims) (key alg : string) : result string :=
  if bool_decide (key = "")
  then Raise (Exc InvalidKeyError "empty key")
  else Return "tok.issued".

#[export] Instance jwt : JwtLib := {|
  jwt_encode := demo_encode;
  jwt_decode := demo_decode;
  jwt_signed := demo_signed
|}.

Definition alice : User := {|
  id := 1; username := "alice"; email := "alice@x.com";
  first_name := "Unknown"; last_name := "Unknown"; is_active := true;
  password_hash := "a$Secret123"; created_at := 0; updated_at := 0
|}.

Definition bob : User := {|
  id := 2; username := "bob"; email := "bob@x.com";
  first_name := "Unknown"; last_name := "Unknown"; is_active := false;
  password_hash := "b$Hunter2"; created_at := 0; updated_at := 0
|}.

Definition db : Session := [alice; bob].

(** A clock reading: 2023-11-14T22:13:20Z. *)
Definition now : Z := 1700000000 * 1000000.

End Demo.

(** ** More of Python's [str], [int] and containers

    The character classes are those of the code points 0..255. *)

Module PyBuiltins.

Import Py PyVal.

(** [c.islower()], [c.isupper()] and [c.isdigit()] of one code point:
    the letters with the Lowercase property (a..z, the ordinal
    indicators, the micro sign, the Latin-1 small letters), those with the
    Uppercase property, and the digits with the superscripts 1, 2, 3. *)
Definition is_lower (c : ascii) : bool :=
  let n := N_of_ascii c in
  ((97 <=? n) && (n <=? 122) || (n =? 170) || (n =? 181) || (n =? 186) ||
   (223 <=? n) && (n <=? 246) || (248 <=? n) && (n <=? 255))%N.

Definition is_upper (c : ascii) : bool :=
  let n := N_of_ascii c in
  ((65 <=? n) && (n <=? 90) || (192 <=? n) && (n <=? 214) ||
   (216 <=? n) && (n <=? 222))%N.

Definition is_digit (c : ascii) : bool :=
  let n := N_of_ascii c in
  ((48 <=? n) && (n <=? 57) || (n =? 178) || (n =? 179) || (n =? 185))%N.

(** [s.islower()]: no upper-case character and at least one lower-case
    one. *)
Fixpoint islower_from (cased : bool) (s : string) : bool :=
  match s with
  | EmptyString => cased
  | String c s' =>
      if is_upper c then false else islower_from (cased || is_lower c) s'
  end.

Definition str_islower (s : string) : bool := islower_from false s.

(** [s.isupper()]. *)
Fixpoint isupper_from (cased : bool) (s : string) : bool :=
  match s with
  | EmptyString => cased
  | String c s' =>
      if is_lower c then false else isupper_from (cased || is_upper c) s'
  end.

Definition str_isupper (s : string) : bool := isupper_from false s.

(** [s.isdigit()]: non-empty and made of digits. *)
Fixpoint all_digits (s : string) : bool :=
  match s with
  | EmptyString => true
  | String c s' => is_digit c && all_digits s'
  end.

Definition str_isdigit (s : string) : bool :=
  negb (bool_decide (s = "")) && all_digits s.

(** A call [v.method()] of a [str] method on a value. *)
Definition call_str_method (method : string -> bool) (v : value) : result bool :=
  match v with
  | VStr s => Return (method s)
  | _ => Raise (Exc AttributeError "object has no such attribute")
  end.

(** The items [for c in v] goes through: the one-character strings of a
    [str], the elements of a [list]. *)
Fixpoint chars (s : string) : list value :=
  match s with
  | EmptyString => []
  | String c s' => VStr (String c EmptyString) :: chars s'
  end.

Definition py_iter (v : value) : result (list value) :=
  match v with
  | VStr s => Return (chars s)
  | VList items => Return items
  | _ => Raise (Exc TypeError "object is not iterable")
  end.

(** [len(v)]. *)
Definition py_len (v : value) : result Z :=
  match v with
  | VStr s => Return (Z.of_nat (String.length s))
  | VList items => Return (Z.of_nat (length items))
  | _ => Raise (Exc TypeError "object has no len()")
  end.

(** [any(f(c) for c in items)]: stops at the first true item. *)
Fixpoint py_any (f : value -> result bool) (items : list value) : result bool :=
  match items with
  | [] => Return false
  | x :: rest =>
      match f x with
      | Raise e => Raise e
      | Return true => Return true
      | Return false => py_any f rest
      end
  end.

Definition digit_char (d : Z) : ascii := ascii_of_N (Z.to_N (48 + d)).

(** The decimal digits of a non-negative integer, most significant
    first, in front of [acc]. *)
Fixpoint digits_of (fuel : nat) (n : Z) (acc : string) : string :=
  match fuel with
  | O => acc
  | S fuel' =>
      let acc' := String (digit_char (n mod 10)) acc in
      if n <? 10 then acc' else digits_of fuel' (n / 10) acc'
  end.

(** [str(n)] for an [int] (below the interpreter's bound on converted
    digits). *)
Definition str_of_int (n : Z) : string :=
  if n <? 0
  then String "-" (digits_of (S (Z.to_nat (Z.log2 (- n)))) (- n) "")
  else digits_of (S (Z.to_nat (Z.log2 n))) n "".

(** [str(e)] of an exception raised with one message argument. *)
Definition str_of_exn (e : exn) : string :=
  match e with
  | Exc _ msg => msg
  | HTTPException _ detail => detail
  end.

End PyBuiltins.

(** ** [app/core/config.py] *)

Module Config.

Import PyVal.

(** The properties [is_dev], [is_prod] and [is_test] of [Settings], as
    functions of its [ENV] field. *)
Definition is_dev (ENV : string) : bool :=
  bool_decide (PyStr.lower ENV = "development").

Definition is_prod (ENV : string) : bool :=
  bool_decide (PyStr.lower ENV = "production").

Definition is_test (ENV : string) : bool :=
  bool_decide (PyStr.lower ENV = "testing").

(** [get_environment_mode(env)]; [env] may be [None]. *)
Definition get_environment_mode (env : option string) : string :=
  let env :=
    PyStr.lower
      match env with
      | Some s => if truthy (VStr s) then s else ""
      | None => ""
      end in
  if bool_decide (env = "development") then "development mode"
  else if bool_decide (env = "production") then "production mode"
  else if bool_decide (env = "testing") then "testing mode"
  else "Unknown environment".

End Config.

(** ** [app/database/dbase.py]: the environment helpers *)

Module Dbase.

Import Py PyVal.

(** [os.environ]. *)
Abbreviation environ := (gmap string string).

(** The truth value of [os.getenv(name)]: unset and empty are false. *)
Definition getenv_truthy (env : environ) (name : string) : bool :=
  match env !! name with
  | Some s => truthy (VStr s)
  | None => false
  end.

(** [get_database_url()]. *)
Definition get_database_url (env : environ) : string :=
  if getenv_truthy env "PYTEST_CURRENT_TEST"
  then "sqlite:///./test.db"
  else default "sqlite:///./app.db" (env !! "DATABASE_URL").

(** [_ensure_sqlite_fallback()]. *)
Definition _ensure_sqlite_fallback (env : environ) : result unit * environ :=
  (Return tt, <["DATABASE_URL" := "sqlite:///./test.db"]> env).

(** [_trigger_fallback_if_test_env()]. *)
Definition _trigger_fallback_if_test_env (env : environ)
    : result bool * environ :=
  let '(r, env') := _ensure_sqlite_fallback env in
  (try_except (_ ← r; Return true)
     [(Exception,
       fun _ => Raise (Exc RuntimeError "Database fallback failed"))],
   env').

End Dbase.

(** ** [app/schemas/base.py] *)

Module Schemas.

Import Py PyVal PyBuiltins.

(** [PasswordMixin.validate_password(cls, values)], run on the raw input
    mapping before the fields are parsed. *)
Definition validate_password (values : claims) : result claims :=
  let pwd := default (VStr "") (values !! "password") in
  if negb (truthy pwd)
  then Raise (Exc ValueError "Password is required.")
  else
    n ← py_len pwd;
    if n <? 6
    then Raise (Exc ValueError "Password must be at least 6 characters long.")
    else
      items ← py_iter pwd;
      has_lower ← py_any (call_str_method str_islower) items;
      if negb has_lower
      then Raise (Exc ValueError
                    "Password must contain at least one lowercase letter.")
      else
        has_upper ← py_any (call_str_method str_isupper) items;
        if negb has_upper
        then Raise (Exc ValueError
                      "Password must contain at least one uppercase letter.")
        else
          has_digit ← py_any (call_str_method str_isdigit) items;
          if negb has_digit
          then Raise (Exc ValueError
                        "Password must contain at least one numeric digit.")
          else Return values.

(** The fields of [UserCreate] and of [UserLogin] once parsed. *)
Record UserCreate : Type := {
  uc_first_name : string;
  uc_last_name : string;
  uc_username : string;
  uc_email : string;
  uc_password : string
}.

Record UserLogin : Type := {
  ul_username : string;
  ul_password : string
}.

(** [UserResponse]. *)
Record UserResponse : Type := {
  ur_id : Z;
  ur_first_name : string;
  ur_last_name : string;
  ur_username : string;
  ur_email : string;
  ur_is_active : bool;
  ur_created_at : Z;
  ur_updated_at : option Z
}.

(** [CalculationCompute] and [CalculationRead] of
    [app/schemas/cal_schemas.py]. *)
Record CalculationCompute : Type := {
  cc_type : string;
  cc_a : float;
  cc_b : float
}.

Record CalculationRead : Type := {
  cr_result : float
}.

(** The [EmailStr] check of pydantic: the normalised address, or [None]
    for an invalid one. *)
Class EmailStr : Type := {
  validate_email : string -> option string
}.

End Schemas.

(** ** [app/models/user_model.py]: the methods of [User] *)

Module UserMethods.

Import Py PyVal Env UserModel Schemas.

Section WithEnv.

Context {pwd_context : CryptContext} {email_str : EmailStr}.

Definition with_password_hash (self : User) (h : string) : User :=
  {| id := id self; username := username self; email := email self;
     first_name := first_name self; last_name := last_name self;
     is_active := is_active self; password_hash := h;
     created_at := created_at self; updated_at := updated_at self |}.

(** [User.set_password(self, raw_password)]: the object after the call. *)
Definition set_password (r : salt) (self : User) (raw_password : value)
    : result User :=
  if negb (truthy raw_password) || negb (is_str raw_password)
  then Raise (Exc ValueError "Password must be a non-empty string")
  else
    h ← Security.hash_password r raw_password;
    Return (with_password_hash self h).

(** [User.verify_password(self, raw_password)]. *)
Definition verify_password (self : User) (raw_password : value) : result bool :=
  try_except (Security.verify_password raw_password (VStr (password_hash self)))
    [(Exception, fun _ => Return false)].

(** [User.to_read_schema(self)]; a failed validation is pydantic's
    [ValidationError], a [ValueError]. *)
Definition to_read_schema (self : User) : result UserResponse :=
  match validate_email (email self) with
  | None => Raise (Exc ValueError "validation error for UserResponse")
  | Some addr =>
      Return {| ur_id := id self; ur_first_name := first_name self;
                ur_last_name := last_name self; ur_username := username self;
                ur_email := addr; ur_is_active := is_active self;
                ur_created_at := created_at self;
                ur_updated_at := Some (updated_at self) |}
  end.

End WithEnv.

End UserMethods.

(** ** [app/routers/calc.py] and [app/routers/auth.py] *)

Module Routers.

Import Py PyVal PyBuiltins PyTime Env UserModel Schemas.

(** [compute_calculation(payload)]. *)
Definition compute_calculation (payload : CalculationCompute)
    : result CalculationRead :=
  result ←
    try_except
      (operation ← Factory.create (cc_type payload);
       Factory.compute operation (cc_a payload) (cc_b payload))
      [(ValueError,
        fun e => Raise (HTTPException HTTP_400_BAD_REQUEST (str_of_exn e)))];
  Return {| cr_result := result |}.

Section WithEnv.

Context {settings : Settings} {pwd_context : CryptContext} {jwt : JwtLib}
        {email_str : EmailStr}.

(** [register_user(payload, db)].  The row gets the column defaults of
    [User]; its id and timestamps come from the store ([new_id], [now]),
    which adds it after the rows it holds. *)
Definition register_user (r : salt) (now new_id : Z) (payload : UserCreate)
    (db : Session) : result UserResponse * Session :=
  match query_first db (fun u => bool_decide (username u = uc_username payload)) with
  | Some _ =>
      (Raise (HTTPException HTTP_400_BAD_REQUEST "Username already exists"), db)
  | None =>
      match query_first db (fun u => bool_decide (email u = uc_email payload)) with
      | Some _ =>
          (Raise (HTTPException HTTP_400_BAD_REQUEST "Email already registered"),
           db)
      | None =>
          match Security.hash_password r (VStr (uc_password payload)) with
          | Raise e => (Raise e, db)
          | Return h =>
              let user :=
                {| id := new_id; username := uc_username payload;
                   email := uc_email payload;
                   first_name := "Unknown"; last_name := "Unknown";
                   is_active := true; password_hash := h;
                   created_at := now; updated_at := now |} in
              (UserMethods.to_read_schema user, (db ++ [user])%list)
          end
      end
  end.

(** [login(credentials, db)]; the [dict] literal with the subject is
    allocated in the store and passed to [create_access_token]. *)
Definition login (now : Z) (h : gmap positive claims)
    (credentials : UserLogin) (db : Session)
    : result claims * gmap positive claims :=
  let user :=
    query_first db
      (fun u => bool_decide (username u = ul_username credentials)
                || bool_decide (email u = ul_username credentials)) in
  match user with
  | None => (Raise (unauthorized "Invalid username or password"), h)
  | Some u =>
      match Security.verify_password (VStr (ul_password credentials))
              (VStr (password_hash u)) with
      | Raise e => (Raise e, h)
      | Return false =>
          (Raise (unauthorized "Invalid username or password"), h)
      | Return true =>
          let data := fresh (dom h) in
          let h1 := <[data := {[ "sub" := VStr (str_of_int (id u)) ]}]> h in
          let '(token, h2) := Security.create_access_token now h1 data None in
          (t ← token;
           Return {[ "access_token" := VStr t; "token_type" := VStr "bearer" ]},
           h2)
      end
  end.

End WithEnv.

End Routers.

(** ** More of the concrete environment *)

Module DemoMore.

Import Py PyVal Env UserModel Schemas.

Fixpoint has_at (s : string) : bool :=
  match s with
  | EmptyString => false
  | String c s' => bool_decide (c = "@"%char) || has_at s'
  end.

(** An address is taken as valid, and as normalised, when it has an at
    sign. *)
#[export] Instance email_str : EmailStr := {|
  validate_email := fun s => if has_at s then Some s else None
|}.

Definition carol : UserCreate := {|
  uc_first_name := "Carol"; uc_last_name := "Jones";
  uc_username := "carol"; uc_email := "carol@x.com";
  uc_password := "Passw0rd"
|}.

(** The row the store holds for carol once registered with id 3. *)
Definition carol_row : User := {|
  id := 3; username := "carol"; email := "carol@x.com";
  first_name := "Unknown"; last_name := "Unknown"; is_active := true;
  password_hash := "a$Passw0rd";
  created_at := Demo.now; updated_at := Demo.now
|}.

(** A registration whose username is alice's email address. *)
Definition dave : UserCreate := {|
  uc_first_name := "Dave"; uc_last_name := "Smith";
  uc_username := "alice@x.com"; uc_email := "dave@x.com";
  uc_password := "Passw0rd"
|}.

Definition dave_row : User := {|
  id := 3; username := "alice@x.com"; email := "dave@x.com";
  first_name := "Unknown"; last_name := "Unknown"; is_active := true;
  password_hash := "a$Passw0rd";
  created_at := Demo.now; updated_at := Demo.now
|}.

(** The token library of [Demo] with one more token, whose subject is a
    user name (as the repository's own tests issue it). *)
Definition named_subject_jwt : JwtLib := {|
  jwt_encode := Demo.demo_encode;
  jwt_decode := fun now token key algorithms =>
    if bool_decide (token = "tok.testuser")
    then Return {[ "sub" := VStr "testuser"; "exp" := VInt 2000000000 ]}
    else Demo.demo_decode now token key algorithms;
  jwt_signed := fun token key alg =>
    bool_decide (token = "tok.testuser") || Demo.demo_signed token key alg
|}.

End DemoMore.

(** * Properties *)

(** ** Exceptions and handlers *)

Section PyFacts.

Import Py.

Lemma isinstance_Exception (e : exn) : isinstance e Exception = true.
Proof. destruct e as [[] ?|? ?]; reflexivity. Qed.

Lemma try_except_Return {A} (a : A) clauses :
  try_except (Return a) clauses = Return a.
Proof. reflexivity. Qed.

(** A handler list that ends in [except Exception] lets nothing through
    unhandled: the outcome is a return or comes from a handler. *)
Lemma try_except_catch_all {A} (r : result A) (h : exn -> result A) :
  try_except r [(Exception, h)] =
  match r with Return a => Return a | Raise e => h e end.
Proof. destruct r as [a|e]; [done|]. simpl. by rewrite isinstance_Exception. Qed.

End PyFacts.

(** ** Strings *)

Section PyStrFacts.

Import PyStr.

Lemma is_space_lower_char c : is_space (lower_char c) = is_space c.
Proof. destruct c as [[] [] [] [] [] [] [] []]; reflexivity. Qed.

Lemma lower_char_idem c : lower_char (lower_char c) = lower_char c.
Proof. destruct c as [[] [] [] [] [] [] [] []]; reflexivity. Qed.

Lemma lower_idem s : lower (lower s) = lower s.
Proof. induction s as [|c s IH]; simpl; [done|]. by rewrite lower_char_idem, IH. Qed.

Lemma lower_lstrip s : lower (lstrip s) = lstrip (lower s).
Proof.
  induction s as [|c s IH]; simpl; [done|].
  rewrite is_space_lower_char. by destruct (is_space c).
Qed.

Lemma lower_rstrip s : lower (rstrip s) = rstrip (lower s).
Proof.
  induction s as [|c s IH]; simpl; [done|].
  rewrite <- IH, is_space_lower_char.
  destruct (rstrip s) as [|c' r]; simpl; [by destruct (is_space c)|done].
Qed.

Lemma lower_strip s : lower (strip s) = strip (lower s).
Proof. unfold strip. by rewrite lower_rstrip, lower_lstrip. Qed.

Lemma lstrip_all_space s : all_space s = true -> lstrip s = "".
Proof.
  induction s as [|c s IH]; simpl; [done|].
  intros [Hc Hs]%andb_prop. rewrite Hc. auto.
Qed.

Lemma rstrip_all_space s : all_space s = true -> rstrip s = "".
Proof.
  induction s as [|c s IH]; simpl; [done|].
  intros [Hc Hs]%andb_prop. by rewrite (IH Hs), Hc.
Qed.

Lemma rstrip_app s r : all_space r = true -> rstrip (s ++ r) = rstrip s.
Proof.
  intros Hr. induction s as [|c s IH]; simpl.
  - by apply rstrip_all_space.
  - by rewrite IH.
Qed.

Lemma lstrip_app l s : all_space l = true -> lstrip (l ++ s) = lstrip s.
Proof.
  induction l as [|c l IH]; simpl; [done|].
  intros [Hc Hl]%andb_prop. rewrite Hc. auto.
Qed.

Lemma strip_app_r s r : all_space r = true -> strip (s ++ r) = strip s.
Proof.
  intros Hr. unfold strip. induction s as [|c s IH].
  - change ("" ++ r) with r. by rewrite (lstrip_all_space _ Hr).
  - change (String c s ++ r) with (String c (s ++ r)). simpl.
    destruct (is_space c); [done|].
    change (String c (s ++ r)) with (String c s ++ r).
    by rewrite (rstrip_app (String c s) r Hr).
Qed.

(** Padding with whitespace on either side is stripped away. *)
Lemma strip_padding l s r :
  all_space l = true -> all_space r = true -> strip (l ++ s ++ r) = strip s.
Proof.
  intros Hl Hr. unfold strip at 1. rewrite (lstrip_app _ _ Hl).
  by apply strip_app_r.
Qed.

Lemma strip_all_space s : all_space s = true -> strip s = "".
Proof. intros H. unfold strip. by rewrite (lstrip_all_space _ H). Qed.

Lemma lstrip_empty s : lstrip s = "" -> all_space s = true.
Proof.
  induction s as [|c s IH]; simpl; [done|].
  destruct (is_space c); [auto|done].
Qed.

Lemma rstrip_empty s : rstrip s = "" -> all_space s = true.
Proof.
  induction s as [|c s IH]; simpl; [done|].
  destruct (rstrip s); [|done].
  destruct (is_space c); [auto|done].
Qed.

Lemma rstrip_lstrip_empty s : rstrip (lstrip s) = "" -> lstrip s = "".
Proof.
  induction s as [|c s IH]; simpl; [done|].
  destruct (is_space c) eqn:Hc; [done|].
  simpl. destruct (rstrip s); [by rewrite Hc|done].
Qed.

(** [s.strip()] is empty exactly for the whitespace-only strings. *)
Lemma strip_empty_iff s : strip s = "" <-> all_space s = true.
Proof.
  split; [|apply strip_all_space].
  intros H. by apply lstrip_empty, rstrip_lstrip_empty.
Qed.

End PyStrFacts.

(** ** The calculation factory *)

Section FactoryFacts.

Import Py PyStr Factory.

Lemma OPERATIONS_keys_NoDup : NoDup OPERATIONS_items.*1.
Proof. by apply (bool_decide_unpack _); vm_compute. Qed.

(** The table holds exactly the synonyms the specification enumerates. *)
Lemma OPERATIONS_synonyms key op :
  OPERATIONS !! key = Some op <-> key ∈ synonyms op.
Proof.
  unfold OPERATIONS.
  rewrite <- (elem_of_list_to_map _ _ _ OPERATIONS_keys_NoDup).
  unfold OPERATIONS_items. rewrite !elem_of_cons, elem_of_nil.
  destruct op; simpl; rewrite !elem_of_cons, elem_of_nil; naive_solver.
Qed.

Lemma create_Return name op :
  create name = Return op <-> lower (strip name) ∈ synonyms op.
Proof.
  rewrite <- OPERATIONS_synonyms. unfold create.
  destruct (OPERATIONS !! lower (strip name)); naive_solver.
Qed.

Lemma create_Raise name :
  create name = Raise (Exc ValueError "Unsupported calculation type") <->
  forall op, lower (strip name) ∉ synonyms op.
Proof.
  split.
  - intros H op Hin%create_Return. congruence.
  - intros H. unfold create.
    destruct (OPERATIONS !! lower (strip name)) as [op|] eqn:E; [|done].
    apply OPERATIONS_synonyms in E. by destruct (H op).
Qed.

(** C7.  [CalculationFactory.create(name)] looks the name up after
    stripping surrounding whitespace and lower-casing it: it returns the
    handler of an operation exactly when the normalised name is one of the
    enumerated synonyms of that operation, and raises
    [ValueError("Unsupported calculation type")] exactly when it is a
    synonym of none -- so whitespace padding and letter case never change
    the outcome, ["  ADD  "] resolves to the addition handler, and ["xyz"]
    and the empty name are refused. *)
Theorem create_normalises_and_resolves :
  (forall name op,
     create name = Return op <-> lower (strip name) ∈ synonyms op) /\
  (forall name,
     create name = Raise (Exc ValueError "Unsupported calculation type") <->
     forall op, lower (strip name) ∉ synonyms op) /\
  (forall l name r,
     all_space l = true -> all_space r = true ->
     create (l ++ name ++ r) = create name) /\
  (forall name name', lower name = lower name' -> create name = create name') /\
  (forall op key, key ∈ synonyms op -> create key = Return op) /\
  create "  ADD  " = Return AddOperation /\
  create "xyz" = Raise (Exc ValueError "Unsupported calculation type") /\
  create "" = Raise (Exc ValueError "Unsupported calculation type").
Proof.
  split; [exact create_Return|].
  split; [exact create_Raise|].
  split.
  { intros l name r Hl Hr. unfold create. by rewrite strip_padding. }
  split.
  { intros name name' H. unfold create. by rewrite !lower_strip, H. }
  split.
  { intros op key Hin. apply create_Return.
    destruct op; simpl in Hin;
      repeat (apply elem_of_cons in Hin as [->|Hin]; [vm_compute; set_solver|]);
      by apply elem_of_nil in Hin. }
  repeat split; by vm_compute.
Qed.

(** The statement at a padded, upper-case spelling of each operation. *)
Lemma create_normalises_and_resolves_witness :
  create (" " ++ "TIMES" ++ "  ") = create "TIMES" /\
  create "Divide" = create "dIVIDE" /\
  create "minus" = Return SubtractOperation.
Proof.
  destruct create_normalises_and_resolves as (_ & _ & Hpad & Hcase & Hsyn & _).
  split; [apply Hpad; reflexivity|].
  split; [apply Hcase; reflexivity|].
  apply Hsyn. simpl. set_solver.
Defined.

(** C8.  On floats, the addition, subtraction and multiplication handlers
    always return (the sum, difference and product); the division handler
    raises [ValueError("Division by zero")] exactly when [b == 0] and
    otherwise returns the floating-point quotient [a / b], which is not
    truncated: [compute(20, 5)] is [4.0] and [compute(7, 2)] is [3.5]. *)
Theorem compute_fails_only_on_zero_divisor (a b : float) :
  compute AddOperation a b = Return (a + b)%float /\
  compute SubtractOperation a b = Return (a - b)%float /\
  compute MultiplyOperation a b = Return (a * b)%float /\
  (compute DivideOperation a b = Raise (Exc ValueError "Division by zero") <->
   (b =? 0)%float = true) /\
  ((b =? 0)%float = false ->
   compute DivideOperation a b = Return (a / b)%float) /\
  compute DivideOperation 20 5 = Return 4%float /\
  compute DivideOperation 7 2 = Return 3.5%float /\
  compute DivideOperation 10 0 = Raise (Exc ValueError "Division by zero") /\
  compute DivideOperation 10 (-0) = Raise (Exc ValueError "Division by zero").
Proof.
  repeat split; try reflexivity; simpl; unfold DivideOperation_compute.
  - by destruct (b =? 0)%float.
  - by intros ->.
  - by intros ->.
Qed.

Lemma compute_fails_only_on_zero_divisor_witness :
  compute DivideOperation 1 4 = Return 0.25%float /\
  compute DivideOperation 1 0 = Raise (Exc ValueError "Division by zero").
Proof.
  destruct (compute_fails_only_on_zero_divisor 1 4) as (_ & _ & _ & _ & H & _).
  destruct (compute_fails_only_on_zero_divisor 1 0) as (_ & _ & _ & [_ H0] & _).
  split; [exact (H eq_refl)|exact (H0 eq_refl)].
Defined.

End FactoryFacts.

(** ** Password hashing *)

Section HasherFacts.

Import Py PyStr PyVal Env Security.

Context {settings : Settings} {pwd_context : CryptContext} {jwt : JwtLib}.

Lemma truthy_strip_blank s : truthy (VStr (strip s)) = negb (all_space s).
Proof.
  simpl. destruct (all_space s) eqn:E.
  - apply strip_empty_iff in E. by rewrite E.
  - case_bool_decide as H; [|done].
    apply strip_empty_iff in H. congruence.
Qed.

Lemma hash_password_str r s :
  hash_password r (VStr s) =
  if all_space s
  then Raise (Exc ValueError "Password must be a non-empty string")
  else match ctx_hash r s with
       | Return d => Return d
       | Raise _ => Raise (Exc RuntimeError "Password hashing failed")
       end.
Proof.
  unfold hash_password. rewrite truthy_strip_blank, negb_involutive.
  destruct (all_space s); [done|]. apply try_except_catch_all.
Qed.

(** [verify_password] returns a boolean whatever it is given. *)
Lemma verify_password_total plain hashed :
  exists b, verify_password plain hashed = Return b.
Proof.
  unfold verify_password.
  destruct plain; eauto. destruct hashed; eauto.
  rewrite try_except_catch_all. destruct (ctx_verify _ _); eauto.
Qed.

Lemma verify_password_str p h :
  verify_password (VStr p) (VStr h) =
  match ctx_verify p h with
  | Return b => Return b
  | Raise _ => Return false
  end.
Proof. unfold verify_password. apply try_except_catch_all. Qed.

(** C9, amended.  [hash_password] raises
    [ValueError("Password must be a non-empty string")] exactly when its
    argument is not a string or is a string that is empty once stripped
    of whitespace (so also for a whitespace-only string); for every other
    string it returns the digest the hashing context produces, or raises
    [RuntimeError("Password hashing failed")] when the context raises. *)
Theorem hash_password_rejects_blank_input (r : salt) (v : value) :
  (hash_password r v =
     Raise (Exc ValueError "Password must be a non-empty string") <->
   is_str v = false \/ exists s, v = VStr s /\ all_space s = true) /\
  (forall s, v = VStr s -> all_space s = false ->
     hash_password r v =
     match ctx_hash r s with
     | Return d => Return d
     | Raise _ => Raise (Exc RuntimeError "Password hashing failed")
     end).
Proof.
  split.
  - destruct v as [| | |s| |];
      try (split; [by left|done]).
    rewrite hash_password_str. simpl.
    destruct (all_space s) eqn:E.
    + split; [|done]. right. eauto.
    + split.
      * by destruct (ctx_hash r s).
      * intros [?|(s' & [= <-] & ?)]; [done|congruence].
  - intros s -> E. by rewrite hash_password_str, E.
Qed.

(** C5, amended.  For every salt and every string password that is not
    whitespace-only, [hash_password] either returns a digest, and then
    [verify_password] of the password against that digest returns
    [True], or raises [RuntimeError("Password hashing failed")] because
    the hashing context raised.  The salt is arbitrary, so the digests of
    two calls may differ and each verifies. *)
Theorem verify_password_accepts_own_digest
    `{!CryptContextSound pwd_context} (r : salt) (p : string) :
  all_space p = false ->
  match hash_password r (VStr p) with
  | Return d => verify_password (VStr p) (VStr d) = Return true
  | Raise e =>
      e = Exc RuntimeError "Password hashing failed" /\
      exists e', ctx_hash r p = Raise e'
  end.
Proof.
  intros E. rewrite hash_password_str, E.
  destruct (ctx_hash r p) as [d|e'] eqn:Hh; [|eauto].
  by rewrite verify_password_str, (ctx_verify_hash _ _ _ Hh).
Qed.

End HasherFacts.

(** ** Token decoding *)

Section CodecFacts.

Import Py PyStr PyVal Env Security.

Context {settings : Settings} {pwd_context : CryptContext} {jwt : JwtLib}.

(** An expired-signature error is an invalid-token error, so the first
    two handlers of [decode_access_token] cover one class. *)
Lemma isinstance_Expired_Invalid e :
  isinstance e ExpiredSignatureError = true ->
  isinstance e InvalidTokenError = true.
Proof. destruct e as [[] ?|? ?]; simpl; done. Qed.

Lemma decode_access_token_cases now token :
  decode_access_token now token =
  match jwt_decode now token SECRET_KEY [ALGORITHM] with
  | Return c => Return c
  | Raise e =>
      if isinstance e InvalidTokenError
      then Raise (Exc RuntimeError "Invalid or expired token")
      else Raise (Exc RuntimeError "Token decode failure")
  end.
Proof.
  unfold decode_access_token.
  destruct (jwt_decode _ _ _ _) as [c|e]; [done|]. simpl.
  destruct (isinstance e ExpiredSignatureError) eqn:E1.
  - by rewrite (isinstance_Expired_Invalid _ E1).
  - destruct (isinstance e InvalidTokenError); [done|].
    by rewrite isinstance_Exception.
Qed.

(** Whatever [decode_access_token] raises is a [RuntimeError]. *)
Lemma decode_access_token_raises now token e :
  decode_access_token now token = Raise e ->
  isinstance e RuntimeError = true.
Proof.
  rewrite decode_access_token_cases.
  destruct (jwt_decode _ _ _ _) as [c|e']; [done|].
  by destruct (isinstance e' InvalidTokenError); intros [= <-].
Qed.

(** C4.  [decode_access_token] returns the claims exactly when
    [jwt.decode] returns them; it raises
    [RuntimeError("Invalid or expired token")] exactly when [jwt.decode]
    raises an [InvalidTokenError] -- the class of an expired signature, of
    a failed signature check and of a malformed token alike, so the
    caller sees one and the same error for all of them; and it raises
    [RuntimeError("Token decode failure")] exactly when [jwt.decode]
    raises anything else. *)
Theorem decode_access_token_classification (now : Z) (token : string) :
  let decoded := jwt_decode now token SECRET_KEY [ALGORITHM] in
  (forall c, decode_access_token now token = Return c <-> decoded = Return c) /\
  (decode_access_token now token =
     Raise (Exc RuntimeError "Invalid or expired token") <->
   exists e, decoded = Raise e /\ isinstance e InvalidTokenError = true) /\
  (decode_access_token now token =
     Raise (Exc RuntimeError "Token decode failure") <->
   exists e, decoded = Raise e /\ isinstance e InvalidTokenError = false) /\
  (forall msg cls,
     cls ∈ [ExpiredSignatureError; InvalidSignatureError; DecodeError] ->
     decoded = Raise (Exc cls msg) ->
     decode_access_token now token =
       Raise (Exc RuntimeError "Invalid or expired token")).
Proof.
  intros decoded. rewrite decode_access_token_cases. fold decoded.
  destruct decoded as [c|e].
  - split; [done|]. repeat split; try done; by intros (e & ? & _).
  - split; [by destruct (isinstance e InvalidTokenError)|].
    destruct (isinstance e InvalidTokenError) eqn:E.
    + split; [split; [eauto|done]|].
      split; [split; [done|]; intros (e' & [= <-] & ?); congruence|done].
    + split; [split; [done|]; intros (e' & [= <-] & ?); congruence|].
      split; [split; [eauto|done]|].
      intros msg cls Hcls [= ->]. exfalso. revert E.
      repeat (apply elem_of_cons in Hcls as [->|Hcls]; [done|]).
      by apply elem_of_nil in Hcls.
Qed.

End CodecFacts.

(** ** The authenticated-request boundary *)

Section GuardFacts.

Import Py PyStr PyVal Env UserModel Security Dependencies.

Context {settings : Settings} {pwd_context : CryptContext} {jwt : JwtLib}.

(** The [try] around the decoder in [verify_access_token] and
    [get_current_user]: every decoder failure becomes the same 401. *)
Lemma guarded_decode now token :
  try_except (decode_access_token now token)
    [ (RuntimeError,
       fun _ => Raise (unauthorized "Invalid or expired token")) ] =
  match jwt_decode now token SECRET_KEY [ALGORITHM] with
  | Return c => Return c
  | Raise _ => Raise (unauthorized "Invalid or expired token")
  end.
Proof.
  rewrite decode_access_token_cases.
  destruct (jwt_decode _ _ _ _) as [c|e]; [done|].
  by destruct (isinstance e InvalidTokenError).
Qed.

Lemma verify_access_token_cases now token :
  verify_access_token now token =
  match jwt_decode now token SECRET_KEY [ALGORITHM] with
  | Return c => Return c
  | Raise _ => Raise (unauthorized "Invalid or expired token")
  end.
Proof. apply guarded_decode. Qed.

Lemma get_current_user_cases now token db :
  get_current_user now token db =
  match token with
  | None | Some "" => Raise (unauthorized "Invalid or expired token")
  | Some t =>
      match jwt_decode now t SECRET_KEY [ALGORITHM] with
      | Raise _ => Raise (unauthorized "Invalid or expired token")
      | Return c =>
          if truthy (dict_get c "sub") then
            match int_of (dict_get c "sub") with
            | Raise e => Raise e
            | Return n =>
                match query_first db (fun u => bool_decide (id u = n)) with
                | None => Raise (unauthorized "User not found")
                | Some u => Return u
                end
            end
          else Raise (unauthorized "Missing user id in token")
      end
  end.
Proof.
  unfold get_current_user. destruct token as [t|]; [|done].
  destruct t as [|a t]; [done|]. cbn [truthy negb bool_decide].
  case_bool_decide; [done|]. cbn [negb].
  fold (unauthorized "Invalid or expired token").
  rewrite guarded_decode.
  destruct (jwt_decode _ _ _ _) as [c|e]; [|done].
  cbn [mbind result_bind bind].
  destruct (truthy (dict_get c "sub")); [|done]. cbn [negb].
  by destruct (int_of (dict_get c "sub")).
Qed.

End GuardFacts.

(** ** Queries *)

Section QueryFacts.

Import UserModel.

Lemma query_first_None (db : Session) cond :
  (forall u, u ∈ db -> cond u = false) -> query_first db cond = None.
Proof.
  unfold query_first. induction db as [|x db IH]; intros H; [done|].
  rewrite filter_cons. rewrite decide_False.
  - apply IH. intros u Hu. apply H. by right.
  - rewrite (H x); [done|by left].
Qed.

Lemma query_first_split (db : Session) cond l1 u l2 :
  db = (l1 ++ u :: l2)%list ->
  (forall x, x ∈ l1 -> cond x = false) ->
  cond u = true ->
  query_first db cond = Some u.
Proof.
  intros -> H Hu. unfold query_first.
  induction l1 as [|x l1 IH]; simpl.
  - by rewrite filter_cons, decide_True.
  - rewrite filter_cons, decide_False.
    + apply IH. intros y Hy. apply H. by right.
    + rewrite (H x); [done|by left].
Qed.

Lemma query_first_Some (db : Session) cond u :
  query_first db cond = Some u ->
  cond u = true /\
  exists l1 l2, db = (l1 ++ u :: l2)%list /\ forall x, x ∈ l1 -> cond x = false.
Proof.
  unfold query_first. induction db as [|x db IH]; [done|].
  rewrite filter_cons. case_decide as Hx.
  - intros [= ->]. split; [done|]. exists [], db. split; [done|].
    intros y Hy. by apply elem_of_nil in Hy.
  - intros (Hu & l1 & l2 & -> & H)%IH. split; [done|].
    exists (x :: l1), l2. split; [done|].
    intros y [->|Hy]%elem_of_cons; [by destruct (cond x)|auto].
Qed.

End QueryFacts.

(** ** The Session Guard and the Authenticator *)

Section GuardTheorems.

Import Py PyStr PyVal Env UserModel Security Dependencies.

Context {settings : Settings} {pwd_context : CryptContext} {jwt : JwtLib}.

(** C3, amended.  [decode_access_token] keeps an internal failure of the
    library apart ("Token decode failure"), but the boundary does not:
    whenever [jwt.decode] raises -- an invalid-token error or anything
    else -- [verify_access_token] and [get_current_user] both raise the
    same [HTTPException] 401 with detail "Invalid or expired token". *)
Theorem boundary_collapses_decoder_failures
    (now : Z) (token : string) (db : Session) (e : exn) :
  jwt_decode now token SECRET_KEY [ALGORITHM] = Raise e ->
  verify_access_token now token =
    Raise (HTTPException 401 "Invalid or expired token") /\
  get_current_user now (Some token) db =
    Raise (HTTPException 401 "Invalid or expired token").
Proof.
  intros H. rewrite verify_access_token_cases, get_current_user_cases, H.
  split; [done|]. by destruct token.
Qed.



(** C6.  [authenticate_user] never raises.  It selects the first row
    whose username or whose email equals the identifier exactly: with no
    such row it returns [None]; with such a row it returns the row when
    [verify_password] accepts the password against the row's digest and
    [None] when it does not.  So a returned account always matches the
    identifier on one of the two fields and has a verified password. *)
Theorem authenticate_user_spec
    (db : Session) (identifier : string) (password : value) :
  let matches u := username u = identifier \/ email u = identifier in
  let verified u :=
    Security.verify_password password (VStr (password_hash u)) in
  (exists r, authenticate_user db identifier password = Return r) /\
  ((forall u, u ∈ db -> ~ matches u) ->
   authenticate_user db identifier password = Return None) /\
  (forall l1 u l2,
     db = (l1 ++ u :: l2)%list -> (forall x, x ∈ l1 -> ~ matches x) ->
     matches u ->
     (verified u = Return false ->
      authenticate_user db identifier password = Return None) /\
     (verified u = Return true ->
      authenticate_user db identifier password = Return (Some u))) /\
  (forall u,
     authenticate_user db identifier password = Return (Some u) ->
     u ∈ db /\ matches u /\ verified u = Return true).
Proof.
  intros matches verified.
  set (cond := fun u : User =>
         bool_decide (username u = identifier)
         || bool_decide (email u = identifier)).
  assert (Hcond : forall u, cond u = true <-> matches u).
  { intros u. unfold cond, matches.
    rewrite orb_true_iff, !bool_decide_eq_true. done. }
  assert (Hncond : forall u, ~ matches u -> cond u = false).
  { intros u Hu. destruct (cond u) eqn:E; [|done]. by apply Hcond in E. }
  assert (Hau : authenticate_user db identifier password =
                match query_first db cond with
                | None => Return None
                | Some u =>
                    match verified u with
                    | Return true => Return (Some u)
                    | Return false => Return None
                    | Raise e => Raise e
                    end
                end).
  { unfold authenticate_user. fold cond.
    destruct (query_first db cond) as [u|]; [|done].
    fold (verified u). by destruct (verified u) as [[]|]. }
  rewrite Hau. clear Hau.
  split; [|split; [|split]].
  - destruct (query_first db cond) as [u|]; [|eauto].
    destruct (verify_password_total password (VStr (password_hash u)))
      as [b Hb].
    unfold verified. rewrite Hb. destruct b; eauto.
  - intros H. by rewrite query_first_None; [|auto].
  - intros l1 u l2 Hdb Hl1 Hu.
    rewrite (query_first_split db cond l1 u l2); auto; [|by apply Hcond].
    split; by intros ->.
  - intros u. destruct (query_first db cond) as [u'|] eqn:Hq; [|done].
    apply query_first_Some in Hq as (Hu' & l1 & l2 & -> & _).
    destruct (verified u') as [[]|] eqn:Hv; [|done..].
    intros [= <-]. split; [set_solver|]. split; [by apply Hcond|done].
Qed.

End GuardTheorems.

(** ** Token creation leaves the caller's mapping alone *)

Section FrameFacts.

Import Py PyStr PyVal PyTime Env Security.

Context {settings : Settings} {pwd_context : CryptContext} {jwt : JwtLib}.

Lemma create_access_token_body_frame now (h : gmap positive claims) data delta l :
  l ∈ dom h ->
  (create_access_token_body now h data delta).2 !! l = h !! l.
Proof.
  intros Hl. unfold create_access_token_body.
  destruct (h !! data) as [d|]; [|done].
  assert (Hne : fresh (dom h) <> l).
  { intros <-. by apply (is_fresh (dom h)). }
  destruct (datetime_add now (effective_delta delta)) as [expire|e]; simpl.
  - destruct (alter _ _ _ !! fresh (dom h)); simpl;
      by rewrite lookup_alter_ne, lookup_insert_ne.
  - by rewrite lookup_insert_ne.
Qed.

(** C10.  [create_access_token] does not change the caller's mapping:
    whether it returns a token or raises, every [dict] that existed before
    the call -- the one passed as [data] among them -- holds the same keys
    and values after it; the ["exp"] claim goes into a fresh copy, which
    is what gets encoded. *)
Theorem create_access_token_preserves_data
    (now : Z) (h : gmap positive claims) (data : positive)
    (expires_delta : option Z) :
  let out := create_access_token now h data expires_delta in
  out.2 !! data = h !! data /\
  (forall l, l ∈ dom h -> out.2 !! l = h !! l) /\
  (forall d expire,
     h !! data = Some d ->
     datetime_add now (effective_delta expires_delta) = Return expire ->
     out.1 =
       try_except
         (jwt_encode (<["exp" := VDatetime expire]> d) SECRET_KEY ALGORITHM)
         [(Exception,
           fun _ => Raise (Exc RuntimeError "JWT creation failed"))]).
Proof.
  cbv zeta.
  assert (Hsnd : (create_access_token now h data expires_delta).2 =
                 (create_access_token_body now h data expires_delta).2).
  { unfold create_access_token. by destruct (create_access_token_body _ _ _ _). }
  rewrite Hsnd. split; [|split].
  - destruct (h !! data) as [d|] eqn:Hd.
    + rewrite <- Hd. apply create_access_token_body_frame.
      apply elem_of_dom. by rewrite Hd.
    + unfold create_access_token_body. by rewrite Hd.
  - intros l. apply create_access_token_body_frame.
  - intros d expire Hd He.
    unfold create_access_token, create_access_token_body.
    rewrite Hd, He. rewrite lookup_alter_eq, lookup_insert_eq. done.
Qed.

End FrameFacts.

(** ** The concrete environment: the collaborators keep their contracts *)

Section DemoFacts.

Import Py PyStr PyVal PyTime Env UserModel Security Dependencies Demo.

Lemma demo_pwd_context_sound : CryptContextSound Demo.pwd_context.
Proof.
  constructor. intros r p d. simpl. unfold demo_hash.
  destruct (has_nul p); [done|]. intros [= <-]. simpl.
  by rewrite bool_decide_eq_true_2.
Qed.

Lemma demo_jwt_sound : JwtLibSound Demo.jwt.
Proof.
  constructor; simpl; unfold demo_decode, demo_signed.
  - intros now token key algorithms c.
    case_bool_decide; [done|].
    destruct (demo_tokens !! token) as [t|]; [|done].
    destruct (bool_decide (st_key t = key)) eqn:Hk; [|done].
    destruct (bool_decide (st_alg t ∈ algorithms)) eqn:Ha; [|done].
    intros _. exists (st_alg t). apply bool_decide_eq_true in Ha.
    split; [done|]. by rewrite bool_decide_eq_true_2.
  - intros now token key algorithms c e.
    case_bool_decide; [done|].
    destruct (demo_tokens !! token) as [t|]; [|done].
    destruct (negb _); [done|].
    destruct (st_claims t !! "exp") as [[| |e'| | |]|] eqn:He;
      try (intros [= <-]; congruence).
    destruct (e' * 1000000 <=? now) eqn:Hle; [done|].
    intros [= <-] Hc. rewrite He in Hc. injection Hc as <-.
    by apply Z.leb_gt.
Qed.

End DemoFacts.

(** ** The theorems at concrete inputs *)

Section Instances.

Import Py PyStr PyVal PyTime Env UserModel Security Dependencies Demo.

(** Hashing: a password with content is hashed, [None] is refused. *)
Lemma hash_password_rejects_blank_input_witness :
  hash_password (pwd_context := Demo.pwd_context) true (VStr "Secret123") = Return "a$Secret123" /\
  hash_password (pwd_context := Demo.pwd_context) true VNone =
    Raise (Exc ValueError "Password must be a non-empty string").
Proof.
  split.
  - exact (proj2 (hash_password_rejects_blank_input (pwd_context := Demo.pwd_context) true (VStr "Secret123"))
             "Secret123" eq_refl eq_refl).
  - apply (proj1 (hash_password_rejects_blank_input (pwd_context := Demo.pwd_context) true VNone)).
    left. reflexivity.
Defined.

(** C9 as stated fails: a single space is a non-empty string, yet
    [hash_password] refuses it with the validation error instead of
    returning a digest. *)
Lemma hash_password_refuses_space :
  is_str (VStr " ") = true /\ " " <> "" /\
  hash_password (pwd_context := Demo.pwd_context) true (VStr " ") =
    Raise (Exc ValueError "Password must be a non-empty string").
Proof. by vm_compute. Qed.

(** Two salts give two digests of one password, and both verify. *)
Lemma verify_password_accepts_own_digest_witness :
  hash_password (pwd_context := Demo.pwd_context) true (VStr "Secret123") = Return "a$Secret123" /\
  hash_password (pwd_context := Demo.pwd_context) false (VStr "Secret123") = Return "b$Secret123" /\
  verify_password (VStr "Secret123") (VStr "a$Secret123") = Return true /\
  verify_password (VStr "Secret123") (VStr "b$Secret123") = Return true.
Proof.
  split; [reflexivity|]. split; [reflexivity|]. split.
  - exact (verify_password_accepts_own_digest
             (CryptContextSound0 := demo_pwd_context_sound)
             true "Secret123" eq_refl).
  - exact (verify_password_accepts_own_digest
             (CryptContextSound0 := demo_pwd_context_sound)
             false "Secret123" eq_refl).
Defined.

(** C5 as stated fails: for the non-empty password [" "], hashing and
    then verifying does not return [True]; the hashing step raises. *)
Lemma verify_of_hash_fails_for_space :
  " " <> "" /\
  (d ← hash_password (pwd_context := Demo.pwd_context) true (VStr " ");
   verify_password (VStr " ") (VStr d)) <> Return true.
Proof. by vm_compute. Qed.

(** Decoding: a good, an expired, a forged, a malformed token and a
    failure inside the library. *)
Lemma decode_access_token_classification_witness :
  decode_access_token now "tok.alice" =
    Return {[ "sub" := VStr "1"; "exp" := VInt 2000000000 ]} /\
  decode_access_token now "tok.expired" =
    Raise (Exc RuntimeError "Invalid or expired token") /\
  decode_access_token now "tok.forged" =
    Raise (Exc RuntimeError "Invalid or expired token") /\
  decode_access_token now "tok.alice.abc123" =
    Raise (Exc RuntimeError "Invalid or expired token") /\
  decode_access_token now "crash" =
    Raise (Exc RuntimeError "Token decode failure").
Proof.
  split.
  { apply (proj1 (decode_access_token_classification now "tok.alice")).
    by vm_compute. }
  split.
  { apply (proj2 (proj2 (proj2
             (decode_access_token_classification now "tok.expired")))
             "Signature has expired" ExpiredSignatureError).
    - by left.
    - by vm_compute. }
  split.
  { apply (proj2 (proj2 (proj2
             (decode_access_token_classification now "tok.forged")))
             "Signature verification failed" InvalidSignatureError).
    - right. by left.
    - by vm_compute. }
  split.
  { apply (proj2 (proj2 (proj2
             (decode_access_token_classification now "tok.alice.abc123")))
             "Not enough segments" DecodeError).
    - right. right. by left.
    - by vm_compute. }
  apply (proj1 (proj2 (proj2
           (decode_access_token_classification now "crash")))).
  exists (Exc ValueError "broken decode"). split; by vm_compute.
Defined.

(** The boundary on a failure inside the library and on an expired
    token. *)
Lemma boundary_collapses_decoder_failures_witness :
  verify_access_token now "crash" =
    Raise (HTTPException 401 "Invalid or expired token") /\
  get_current_user now (Some "tok.expired") db =
    Raise (HTTPException 401 "Invalid or expired token").
Proof.
  split.
  - apply (boundary_collapses_decoder_failures now "crash" db
             (Exc ValueError "broken decode")).
    by vm_compute.
  - apply (boundary_collapses_decoder_failures now "tok.expired" db
             (Exc ExpiredSignatureError "Signature has expired")).
    by vm_compute.
Defined.

(** C3 as stated fails: the decoder reports the failure inside the
    library as "Token decode failure", distinct from an expired token,
    but [verify_access_token] and [get_current_user] answer both with the
    same 401 "Invalid or expired token". *)
Lemma internal_failure_answered_like_expired_token :
  jwt_decode now "crash" SECRET_KEY [ALGORITHM] =
    Raise (Exc ValueError "broken decode") /\
  decode_access_token now "crash" =
    Raise (Exc RuntimeError "Token decode failure") /\
  decode_access_token now "tok.expired" =
    Raise (Exc RuntimeError "Invalid or expired token") /\
  verify_access_token now "crash" =
    Raise (HTTPException 401 "Invalid or expired token") /\
  verify_access_token now "crash" = verify_access_token now "tok.expired" /\
  get_current_user now (Some "crash") db =
    Raise (HTTPException 401 "Invalid or expired token") /\
  get_current_user now (Some "crash") db =
    get_current_user now (Some "tok.expired") db.
Proof. by vm_compute. Qed.





(** The Authenticator on the email form, a wrong password, an
    identifier in the wrong letter case and an unknown identifier. *)
Lemma authenticate_user_spec_witness :
  authenticate_user db "alice@x.com" (VStr "Secret123") = Return (Some alice) /\
  authenticate_user db "bob" (VStr "WrongPass") = Return None /\
  authenticate_user db "ALICE" (VStr "Secret123") = Return None /\
  authenticate_user db "ghost" (VStr "password123") = Return None.
Proof.
  split.
  { apply (proj1 (proj2 (proj2
             (authenticate_user_spec db "alice@x.com" (VStr "Secret123"))))
             [] alice [bob]); try by vm_compute.
    - intros x Hx. by apply elem_of_nil in Hx.
    - by right. }
  split.
  { apply (proj1 (proj2 (proj2
             (authenticate_user_spec db "bob" (VStr "WrongPass"))))
             [alice] bob []); try by vm_compute.
    - intros x ->%list_elem_of_singleton. by intros [?|?].
    - by left. }
  split.
  { apply (proj1 (proj2
             (authenticate_user_spec db "ALICE" (VStr "Secret123")))).
    intros u [->|[->|Hu%elem_of_nil]%elem_of_cons]%elem_of_cons;
      [by intros [?|?]..|done]. }
  apply (proj1 (proj2 (authenticate_user_spec db "ghost" (VStr "password123")))).
  intros u [->|[->|Hu%elem_of_nil]%elem_of_cons]%elem_of_cons;
    [by intros [?|?]..|done].
Defined.

(** Token creation for a login: the caller's [dict] keeps its single
    ["sub"] entry. *)
Lemma create_access_token_preserves_data_witness :
  let h : gmap positive claims := {[ 1%positive := {[ "sub" := VStr "1" ]} ]} in
  let out := Security.create_access_token now h 1%positive None in
  out.2 !! 1%positive = Some {[ "sub" := VStr "1" ]} /\
  out.1 = Return "tok.issued".
Proof.
  intros h out. split.
  - apply (proj1 (proj2
             (create_access_token_preserves_data now h 1%positive None))).
    apply elem_of_dom. by exists {[ "sub" := VStr "1" ]}.
  - etrans.
    + apply (proj2 (proj2
               (create_access_token_preserves_data now h 1%positive None))
               {[ "sub" := VStr "1" ]} (now + 1800000000));
        by vm_compute.
    + by vm_compute.
Defined.

End Instances.

(** * Further properties of the source *)

(** ** The calculator endpoint *)

Section CalcEndpointFacts.

Import Py PyStr PyBuiltins Factory Schemas Routers.

Lemma compute_calculation_cases payload :
  compute_calculation payload =
  match create (cc_type payload) with
  | Raise _ => Raise (HTTPException 400 "Unsupported calculation type")
  | Return DivideOperation =>
      if (cc_b payload =? 0)%float
      then Raise (HTTPException 400 "Division by zero")
      else Return {| cr_result := (cc_a payload / cc_b payload)%float |}
  | Return AddOperation =>
      Return {| cr_result := (cc_a payload + cc_b payload)%float |}
  | Return SubtractOperation =>
      Return {| cr_result := (cc_a payload - cc_b payload)%float |}
  | Return MultiplyOperation =>
      Return {| cr_result := (cc_a payload * cc_b payload)%float |}
  end.
Proof.
  unfold compute_calculation, create.
  destruct (OPERATIONS !! _) as [[]|]; try done.
  simpl. unfold DivideOperation_compute.
  by destruct (cc_b payload =? 0)%float.
Qed.

(** X1.  [compute_calculation] answers HTTP 400 "Unsupported calculation
    type" exactly when the normalised type names no operation, HTTP 400
    "Division by zero" exactly when it names division and [b == 0], and
    returns a result in every other case; it raises nothing else. *)
Theorem compute_calculation_outcomes (payload : CalculationCompute) :
  let key := lower (strip (cc_type payload)) in
  (compute_calculation payload =
     Raise (HTTPException 400 "Unsupported calculation type") <->
   forall op, key ∉ synonyms op) /\
  (compute_calculation payload =
     Raise (HTTPException 400 "Division by zero") <->
   key ∈ synonyms DivideOperation /\ (cc_b payload =? 0)%float = true) /\
  (forall e,
     compute_calculation payload = Raise e ->
     e = HTTPException 400 "Unsupported calculation type" \/
     e = HTTPException 400 "Division by zero") /\
  ((exists r, compute_calculation payload = Return r) <->
   exists op, key ∈ synonyms op /\
     (op = DivideOperation -> (cc_b payload =? 0)%float = false)).
Proof.
  cbv zeta. rewrite compute_calculation_cases.
  destruct (create (cc_type payload)) as [op|e] eqn:Hc.
  - apply create_Return in Hc.
    assert (Hother : forall op', lower (strip (cc_type payload)) ∈ synonyms op' ->
                                 op' = op).
    { intros op' H'. apply create_Return in H', Hc. congruence. }
    split.
    { split; [by destruct op; try destruct (_ =? _)%float|].
      intros H. by destruct (H op). }
    destruct op; try (split; [split; [done|]; intros [H _];
        by specialize (Hother _ H)|]; split; [done|];
        split; [intros _; eexists; split; [exact Hc|done]|eauto]).
    destruct (cc_b payload =? 0)%float eqn:Hb.
    + split; [done|]. split; [intros e' [= <-]; by right|].
      split; [by intros [r ?]|]. intros (op & Hop & H).
      specialize (Hother _ Hop). subst op. by specialize (H eq_refl).
    + split; [split; [done|by intros [_ ?]]|]. split; [done|].
      split; [intros _; eexists; split; [exact Hc|done]|eauto].
  - assert (Hnone : forall op, lower (strip (cc_type payload)) ∉ synonyms op).
    { intros op Hin%create_Return. congruence. }
    split; [done|].
    split; [split; [done|]; intros [H _]; by destruct (Hnone _ H)|].
    split; [intros e' [= <-]; by left|].
    split; [by intros [r ?]|]. intros (op & Hop & _). by destruct (Hnone _ Hop).
Qed.

(** X2.  The endpoint reads the type only through its normalised form:
    two payloads whose types agree once stripped and lower-cased, and in
    particular two synonyms of one operation, get the same response for
    the same operands. *)
Theorem compute_calculation_synonyms_agree (name name' : string) (a b : float) :
  let request n := {| cc_type := n; cc_a := a; cc_b := b |} in
  (lower (strip name) = lower (strip name') ->
   compute_calculation (request name) = compute_calculation (request name')) /\
  (forall op, create name = Return op -> create name' = Return op ->
   compute_calculation (request name) = compute_calculation (request name')).
Proof.
  cbv zeta. split.
  - intros H. rewrite !compute_calculation_cases. simpl.
    unfold create. by rewrite H.
  - intros op H H'. rewrite !compute_calculation_cases. simpl.
    by rewrite H, H'.
Qed.

End CalcEndpointFacts.

(** ** Configuration and database helpers *)

Section ConfigFacts.

Import Py PyStr PyVal Config Dbase.

(** X3.  The three environment flags exclude one another, and
    [get_environment_mode] names the flag that holds: "development mode",
    "production mode" or "testing mode" exactly when [is_dev], [is_prod]
    or [is_test] holds, "Unknown environment" exactly when none does --
    also for [None]. *)
Theorem get_environment_mode_matches_flags (ENV : string) :
  (is_dev ENV = true <->
   get_environment_mode (Some ENV) = "development mode") /\
  (is_prod ENV = true <->
   get_environment_mode (Some ENV) = "production mode") /\
  (is_test ENV = true <->
   get_environment_mode (Some ENV) = "testing mode") /\
  (is_dev ENV = false /\ is_prod ENV = false /\ is_test ENV = false <->
   get_environment_mode (Some ENV) = "Unknown environment") /\
  (is_dev ENV && is_prod ENV = false) /\
  (is_dev ENV && is_test ENV = false) /\
  (is_prod ENV && is_test ENV = false) /\
  get_environment_mode None = "Unknown environment".
Proof.
  assert (Hmode : get_environment_mode (Some ENV) =
            if is_dev ENV then "development mode"
            else if is_prod ENV then "production mode"
            else if is_test ENV then "testing mode"
            else "Unknown environment").
  { unfold get_environment_mode, is_dev, is_prod, is_test.
    destruct ENV as [|c s]; [done|]. done. }
  rewrite Hmode. unfold is_dev, is_prod, is_test.
  repeat case_bool_decide; repeat split; try done; try congruence;
    intros (? & ? & ?); done.
Qed.

(** X4.  After [_trigger_fallback_if_test_env], which returns [True] and
    changes no variable but [DATABASE_URL], [get_database_url] is the
    SQLite test database whatever the environment held before. *)
Theorem fallback_forces_sqlite_test_url (env : environ) :
  let out := _trigger_fallback_if_test_env env in
  out.1 = Return true /\
  get_database_url out.2 = "sqlite:///./test.db" /\
  (forall name, name <> "DATABASE_URL" -> out.2 !! name = env !! name).
Proof.
  cbv zeta. unfold _trigger_fallback_if_test_env, _ensure_sqlite_fallback.
  simpl. split; [done|]. split.
  - unfold get_database_url, getenv_truthy.
    rewrite lookup_insert_ne; [|done].
    destruct (env !! "PYTEST_CURRENT_TEST") as [s|]; [|by rewrite lookup_insert_eq].
    destruct (truthy (VStr s)); [done|by rewrite lookup_insert_eq].
  - intros name Hne. by rewrite lookup_insert_ne.
Qed.

End ConfigFacts.

(** ** Password rules of the schemas *)

Section PasswordRuleFacts.

Import Py PyStr PyVal PyBuiltins Env Security Schemas.

Context {pwd_context : CryptContext}.

Lemma is_upper_not_lower c : is_upper c = true -> is_lower c = false.
Proof. destruct c as [[] [] [] [] [] [] [] []]; vm_compute; congruence. Qed.

Lemma is_lower_not_space c : is_lower c = true -> is_space c = false.
Proof. destruct c as [[] [] [] [] [] [] [] []]; vm_compute; congruence. Qed.

Lemma str_islower_char c : str_islower (String c "") = is_lower c.
Proof.
  unfold str_islower. simpl. destruct (is_upper c) eqn:E; [|done].
  by rewrite (is_upper_not_lower _ E).
Qed.

Lemma str_isupper_char c : str_isupper (String c "") = is_upper c.
Proof.
  unfold str_isupper. simpl. destruct (is_lower c) eqn:E; [|done].
  destruct (is_upper c) eqn:E'; [|done].
  apply is_upper_not_lower in E'. congruence.
Qed.

Lemma str_isdigit_char c : str_isdigit (String c "") = is_digit c.
Proof. unfold str_isdigit. simpl. by rewrite andb_true_r. Qed.

(** [any(c.m() for c in s)] over the characters of a string. *)
Lemma py_any_chars (m : string -> bool) (p : ascii -> bool) s :
  (forall c, m (String c "") = p c) ->
  py_any (call_str_method m) (chars s) =
  Return (existsb p (list_ascii_of_string s)).
Proof.
  intros Hm. induction s as [|c s IH]; simpl; [done|].
  rewrite Hm. by destruct (p c).
Qed.

Lemma validate_password_str (values : claims) s :
  values !! "password" = Some (VStr s) ->
  validate_password values =
  if bool_decide (s = "")
  then Raise (Exc ValueError "Password is required.")
  else if Z.of_nat (String.length s) <? 6
  then Raise (Exc ValueError "Password must be at least 6 characters long.")
  else if negb (existsb is_lower (list_ascii_of_string s))
  then Raise (Exc ValueError
                "Password must contain at least one lowercase letter.")
  else if negb (existsb is_upper (list_ascii_of_string s))
  then Raise (Exc ValueError
                "Password must contain at least one uppercase letter.")
  else if negb (existsb is_digit (list_ascii_of_string s))
  then Raise (Exc ValueError
                "Password must contain at least one numeric digit.")
  else Return values.
Proof.
  intros Hp. unfold validate_password. rewrite Hp. simpl default.
  cbn [truthy]. case_bool_decide; [done|]. cbn [negb py_len py_iter].
  cbn [mbind result_bind bind].
  destruct (Z.of_nat (String.length s) <? 6); [done|].
  rewrite (py_any_chars _ _ s str_islower_char).
  destruct (existsb is_lower _); [|done]. cbn [negb].
  rewrite (py_any_chars _ _ s str_isupper_char).
  destruct (existsb is_upper _); [|done]. cbn [negb].
  rewrite (py_any_chars _ _ s str_isdigit_char).
  by destruct (existsb is_digit _).
Qed.

Lemma existsb_lower_not_blank s :
  existsb is_lower (list_ascii_of_string s) = true -> all_space s = false.
Proof.
  induction s as [|c s IH]; simpl; [done|].
  intros [Hc|Hs]%orb_true_iff.
  - by rewrite (is_lower_not_space _ Hc).
  - rewrite (IH Hs). apply andb_false_r.
Qed.

(** X5.  A string password passes [validate_password] exactly when it
    has at least six characters and contains a lower-case letter, an
    upper-case letter and a digit; the validator then returns the input
    mapping unchanged.  A mapping without a password is refused with
    "Password is required.". *)
Theorem validate_password_accepts_strong (values : claims) :
  (forall s,
     values !! "password" = Some (VStr s) ->
     (validate_password values = Return values <->
      (6 <= String.length s)%nat /\
      (exists c, In c (list_ascii_of_string s) /\ is_lower c = true) /\
      (exists c, In c (list_ascii_of_string s) /\ is_upper c = true) /\
      (exists c, In c (list_ascii_of_string s) /\ is_digit c = true))) /\
  (values !! "password" = None ->
   validate_password values = Raise (Exc ValueError "Password is required.")).
Proof.
  split.
  - intros s Hp. rewrite (validate_password_str _ _ Hp).
    rewrite <- !existsb_exists.
    case_bool_decide as Hs.
    { subst s. split; [done|]. simpl. lia. }
    destruct (Z.of_nat (String.length s) <? 6) eqn:Hlen.
    { apply Z.ltb_lt in Hlen. split; [done|]. lia. }
    apply Z.ltb_ge in Hlen.
    destruct (existsb is_lower _); [|split; [done|]; by intros (_ & ? & _)].
    destruct (existsb is_upper _); [|split; [done|]; by intros (_ & _ & ? & _)].
    destruct (existsb is_digit _); [|split; [done|]; by intros (_ & _ & _ & ?)].
    split; [|done]. intros _. repeat split; lia.
  - intros Hp. unfold validate_password. by rewrite Hp.
Qed.

(** X6.  A password that passed [validate_password] is never refused by
    the guard of [hash_password]: hashing it returns the digest of the
    hashing context, or fails with "Password hashing failed" when the
    context itself raises. *)
Theorem validated_password_is_hashable
    (values : claims) (s : string) (r : salt) :
  values !! "password" = Some (VStr s) ->
  validate_password values = Return values ->
  hash_password r (VStr s) =
  match ctx_hash r s with
  | Return d => Return d
  | Raise _ => Raise (Exc RuntimeError "Password hashing failed")
  end.
Proof.
  intros Hp. rewrite (validate_password_str _ _ Hp).
  case_bool_decide; [done|].
  destruct (_ <? 6); [done|].
  destruct (existsb is_lower _) eqn:Hl; [|done]. intros _.
  by rewrite hash_password_str, (existsb_lower_not_blank _ Hl).
Qed.

End PasswordRuleFacts.

(** ** The password methods of [User] *)

Section UserMethodFacts.

Import Py PyStr PyVal Env UserModel Security UserMethods.

Context {pwd_context : CryptContext}.

Lemma hash_password_not_str r v :
  is_str v = false ->
  hash_password r v =
    Raise (Exc ValueError "Password must be a non-empty string").
Proof. by destruct v. Qed.

Lemma set_password_cases r self raw :
  set_password r self raw =
  match hash_password r raw with
  | Return h => Return (with_password_hash self h)
  | Raise e => Raise e
  end.
Proof.
  unfold set_password.
  destruct raw as [| | |s| |]; try by rewrite hash_password_not_str.
  - simpl. by destruct b.
  - simpl. by destruct (negb (n =? 0)).
  - destruct s as [|c s]; [done|]. simpl truthy. simpl negb. simpl orb.
    by destruct (hash_password r (VStr (String c s))).
  - simpl. by destruct (negb (bool_decide (items = []))).
Qed.

Lemma User_verify_password_cases self raw :
  UserMethods.verify_password self raw =
  Security.verify_password raw (VStr (password_hash self)).
Proof.
  unfold UserMethods.verify_password.
  destruct (verify_password_total raw (VStr (password_hash self))) as [b Hb].
  by rewrite Hb.
Qed.

(** X7.  [User.set_password] fails exactly as [hash_password] does on the
    same argument, with the same exception; when it succeeds, the object
    changes in its [password_hash] only, which becomes the digest. *)
Theorem set_password_follows_hash_password
    (r : salt) (self : User) (raw_password : value) :
  (forall e,
     set_password r self raw_password = Raise e <->
     hash_password r raw_password = Raise e) /\
  (forall self',
     set_password r self raw_password = Return self' <->
     exists h, hash_password r raw_password = Return h /\
               self' = with_password_hash self h) /\
  (forall self',
     set_password r self raw_password = Return self' ->
     id self' = id self /\ username self' = username self /\
     email self' = email self /\ first_name self' = first_name self /\
     last_name self' = last_name self /\ is_active self' = is_active self /\
     created_at self' = created_at self /\ updated_at self' = updated_at self).
Proof.
  rewrite set_password_cases.
  destruct (hash_password r raw_password) as [h|e].
  - split; [by intros; split|]. split.
    + intros self'. split; [intros [= <-]; eauto|].
      by intros (h' & [= <-] & ->).
    + by intros self' [= <-].
  - split; [intros e'; split; by intros [= <-]|]. split; [|done].
    intros self'. split; [done|]. by intros (h & ? & _).
Qed.

(** X8.  After [User.set_password] succeeded with a string password,
    [User.verify_password] accepts that password on the updated
    object. *)
Theorem set_password_then_verify_password
    `{!CryptContextSound pwd_context}
    (r : salt) (self self' : User) (p : string) :
  set_password r self (VStr p) = Return self' ->
  UserMethods.verify_password self' (VStr p) = Return true.
Proof.
  rewrite set_password_cases, hash_password_str.
  destruct (all_space p); [done|].
  destruct (ctx_hash r p) as [d|e] eqn:Hh; [|done].
  intros [= <-]. rewrite User_verify_password_cases.
  change (password_hash (with_password_hash self d)) with d.
  by rewrite verify_password_str, (ctx_verify_hash _ _ _ Hh).
Qed.

(** X9.  [verify_password] never raises: it is [False] when either
    argument is not a string and when the hashing context raises, and
    otherwise the answer of the context; [User.verify_password] gives
    the same answer for the object's digest. *)
Theorem verify_password_degrades_to_false (plain hashed : value) :
  (is_str plain = false \/ is_str hashed = false ->
   Security.verify_password plain hashed = Return false) /\
  (forall p h e,
     plain = VStr p -> hashed = VStr h -> ctx_verify p h = Raise e ->
     Security.verify_password plain hashed = Return false) /\
  (forall p h b,
     plain = VStr p -> hashed = VStr h -> ctx_verify p h = Return b ->
     Security.verify_password plain hashed = Return b) /\
  (exists b, Security.verify_password plain hashed = Return b) /\
  (forall self,
     hashed = VStr (password_hash self) ->
     UserMethods.verify_password self plain =
     Security.verify_password plain hashed).
Proof.
  split.
  { intros [H|H]; [by destruct plain|].
    destruct plain; try done. by destruct hashed. }
  split.
  { intros p h e -> -> H. by rewrite verify_password_str, H. }
  split.
  { intros p h b -> -> H. by rewrite verify_password_str, H. }
  split; [apply verify_password_total|].
  intros self ->. apply User_verify_password_cases.
Qed.

End UserMethodFacts.

(** ** [str] and [int] of an identifier *)

Section StrIntFacts.

Import Py PyStr PyVal PyBuiltins UserModel.

Lemma digit_char_cases d :
  0 <= d < 10 ->
  digit_of (digit_char d) = Some d /\
  is_space (digit_char d) = false /\
  digit_char d <> "-"%char /\ digit_char d <> "+"%char.
Proof.
  intros H.
  assert (d = 0 \/ d = 1 \/ d = 2 \/ d = 3 \/ d = 4 \/ d = 5 \/ d = 6 \/
          d = 7 \/ d = 8 \/ d = 9) as Hd by lia.
  repeat (destruct Hd as [->|Hd]; [by vm_compute|]). subst d. by vm_compute.
Qed.

Lemma mod_10_digit n : 0 <= n mod 10 < 10.
Proof. apply Z.mod_pos_bound. lia. Qed.

(** Reading back the digits written in front of [s]. *)
Lemma parse_digits_digits_of fuel : forall n s,
  0 <= n < 2 ^ Z.of_nat (S fuel) ->
  exists k, (1 <= k <= S fuel)%nat /\
    forall a c b,
      parse_digits a c b (digits_of (S fuel) n s) =
      parse_digits (a * 10 ^ Z.of_nat k + n) (c + k) true s.
Proof.
  induction fuel as [|fuel IH]; intros n s Hn.
  - exists 1%nat. split; [lia|]. intros a c b.
    assert (n < 10) as Hlt by (change (2 ^ Z.of_nat 1) with 2 in Hn; lia).
    simpl digits_of. apply Z.ltb_lt in Hlt as Hlt'. rewrite Hlt'.
    rewrite Z.mod_small by lia. simpl parse_digits.
    destruct (digit_char_cases n) as (-> & _); [lia|].
    f_equal; lia.
  - destruct (n <? 10) eqn:Hlt.
    + exists 1%nat. split; [lia|]. intros a c b.
      apply Z.ltb_lt in Hlt as Hlt'.
      change (digits_of (S (S fuel)) n s) with
        (let acc' := String (digit_char (n mod 10)) s in
         if n <? 10 then acc' else digits_of (S fuel) (n / 10) acc').
      cbv zeta. rewrite Hlt, Z.mod_small by lia. simpl parse_digits.
      destruct (digit_char_cases n) as (-> & _); [lia|].
      f_equal; lia.
    + apply Z.ltb_ge in Hlt as Hge.
      assert (0 <= n / 10 < 2 ^ Z.of_nat (S fuel)) as Hdiv.
      { split; [apply Z.div_pos; lia|].
        apply Z.div_lt_upper_bound; [lia|].
        rewrite (Nat2Z.inj_succ (S fuel)), Z.pow_succ_r in Hn by lia. lia. }
      destruct (IH (n / 10) (String (digit_char (n mod 10)) s) Hdiv)
        as (k & Hk & Hparse).
      exists (S k). split; [lia|]. intros a c b.
      change (digits_of (S (S fuel)) n s) with
        (let acc' := String (digit_char (n mod 10)) s in
         if n <? 10 then acc' else digits_of (S fuel) (n / 10) acc').
      cbv zeta. rewrite Hlt, Hparse. simpl parse_digits.
      destruct (digit_char_cases (n mod 10) (mod_10_digit n)) as (-> & _).
      f_equal; [|lia].
      rewrite Nat2Z.inj_succ, Z.pow_succ_r by lia.
      pose proof (Z.div_mod n 10). lia.
Qed.

Lemma digits_of_head fuel n s :
  exists d rest, 0 <= d < 10 /\
    digits_of (S fuel) n s = String (digit_char d) rest.
Proof.
  revert n s. induction fuel as [|fuel IH]; intros n s.
  - exists (n mod 10), s. split; [apply mod_10_digit|].
    simpl. by destruct (n <? 10).
  - change (digits_of (S (S fuel)) n s) with
      (let acc' := String (digit_char (n mod 10)) s in
       if n <? 10 then acc' else digits_of (S fuel) (n / 10) acc').
    cbv zeta. destruct (n <? 10); [|apply IH].
    exists (n mod 10), s. split; [apply mod_10_digit|done].
Qed.

Lemma digits_of_no_space fuel : forall n s c,
  In c (list_ascii_of_string (digits_of fuel n s)) ->
  is_space c = false \/ In c (list_ascii_of_string s).
Proof.
  induction fuel as [|fuel IH]; intros n s c; [by right|].
  change (digits_of (S fuel) n s) with
    (let acc' := String (digit_char (n mod 10)) s in
     if n <? 10 then acc' else digits_of fuel (n / 10) acc').
  cbv zeta.
  assert (Hacc : In c (list_ascii_of_string (String (digit_char (n mod 10)) s)) ->
                 is_space c = false \/ In c (list_ascii_of_string s)).
  { simpl. intros [<-|H]; [|by right]. left.
    by destruct (digit_char_cases (n mod 10) (mod_10_digit n)) as (_ & ? & _). }
  destruct (n <? 10); [done|].
  intros [H|H]%IH; [by left|auto].
Qed.

Lemma rstrip_no_space s :
  (forall c, In c (list_ascii_of_string s) -> is_space c = false) ->
  rstrip s = s.
Proof.
  induction s as [|c s IH]; [done|]. intros H. simpl.
  rewrite IH by (intros c' Hc'; apply H; by right).
  destruct s; [|done]. rewrite (H c); [done|by left].
Qed.

Lemma strip_no_space s :
  (forall c, In c (list_ascii_of_string s) -> is_space c = false) ->
  strip s = s.
Proof.
  intros H. unfold strip.
  destruct s as [|c s]; [done|]. simpl lstrip.
  rewrite (H c) by (by left). by apply rstrip_no_space.
Qed.

(** [int(str(n))] is [n] for every identifier of the store. *)
Lemma int_of_str_str_of_int n :
  store_int n -> int_of_str (str_of_int n) = Some n.
Proof.
  unfold store_int. intros Hn.
  assert (Hfuel : forall m, 0 <= m <= 2 ^ 63 ->
            0 <= m < 2 ^ Z.of_nat (S (Z.to_nat (Z.log2 m))) /\
            (S (Z.to_nat (Z.log2 m)) <= 64)%nat).
  { intros m Hm. pose proof (Z.log2_nonneg m).
    rewrite Nat2Z.inj_succ, Z2Nat.id by done.
    assert (Z.log2 m <= 63) as Hlog.
    { rewrite <- (Z.log2_pow2 63) by lia. apply Z.log2_le_mono. lia. }
    split; [|lia]. split; [lia|].
    destruct (Z.eq_dec m 0) as [->|]; [done|].
    apply Z.log2_spec. lia. }
  unfold str_of_int. destruct (n <? 0) eqn:Hneg.
  - apply Z.ltb_lt in Hneg.
    destruct (Hfuel (- n)) as [Hf Hle]; [lia|].
    set (fuel := Z.to_nat (Z.log2 (- n))) in *.
    destruct (parse_digits_digits_of fuel (- n) "" Hf) as (k & Hk & Hparse).
    unfold int_of_str. rewrite strip_no_space.
    + rewrite Hparse. simpl parse_digits. cbv beta iota.
      replace (k <=? int_max_str_digits)%nat with true;
        [rewrite Z.mul_0_l; f_equal; lia|].
      symmetry. apply Nat.leb_le. unfold int_max_str_digits. lia.
    + intros c [<-|[H|H]%digits_of_no_space]; done.
  - apply Z.ltb_ge in Hneg.
    destruct (Hfuel n) as [Hf Hle]; [lia|].
    set (fuel := Z.to_nat (Z.log2 n)) in *.
    destruct (parse_digits_digits_of fuel n "" Hf) as (k & Hk & Hparse).
    destruct (digits_of_head fuel n "") as (d & rest & Hd & Hhead).
    unfold int_of_str. rewrite strip_no_space.
    + assert (Hbody :
        match digits_of (S fuel) n "" with
        | String "-" rest => (true, rest)
        | String "+" rest => (false, rest)
        | _ => (false, digits_of (S fuel) n "")
        end = (false, digits_of (S fuel) n "")).
      { rewrite Hhead.
        assert (d = 0 \/ d = 1 \/ d = 2 \/ d = 3 \/ d = 4 \/ d = 5 \/ d = 6 \/
                d = 7 \/ d = 8 \/ d = 9) as Hd' by lia.
        repeat (destruct Hd' as [->|Hd']; [done|]). by subst d. }
      rewrite Hbody, Hparse. simpl parse_digits. cbv beta iota.
      replace (k <=? int_max_str_digits)%nat with true;
        [rewrite Z.mul_0_l; f_equal; lia|].
      symmetry. apply Nat.leb_le. unfold int_max_str_digits. lia.
    + intros c [H|H]%digits_of_no_space; done.
Qed.

Lemma str_of_int_nonempty n : str_of_int n <> "".
Proof.
  unfold str_of_int. destruct (n <? 0); [done|].
  by destruct (digits_of_head (Z.to_nat (Z.log2 n)) n "") as (d & rest & _ & ->).
Qed.

End StrIntFacts.

(** ** Token creation, login and the guard *)

Section LoginFacts.

Import Py PyStr PyVal PyBuiltins PyTime Env UserModel Schemas Security
       Dependencies Routers.

Context {settings : Settings} {pwd_context : CryptContext} {jwt : JwtLib}.

Lemma create_access_token_result now (h : gmap positive claims) data delta :
  (Security.create_access_token now h data delta).1 =
  match h !! data with
  | None => Raise (Exc RuntimeError "JWT creation failed")
  | Some d =>
      match datetime_add now (effective_delta delta) with
      | Raise _ => Raise (Exc RuntimeError "JWT creation failed")
      | Return expire =>
          match jwt_encode (<["exp" := VDatetime expire]> d)
                  SECRET_KEY ALGORITHM with
          | Return t => Return t
          | Raise _ => Raise (Exc RuntimeError "JWT creation failed")
          end
      end
  end.
Proof.
  unfold Security.create_access_token, create_access_token_body.
  destruct (h !! data) as [d|]; [|done].
  destruct (datetime_add now (effective_delta delta)) as [expire|e].
  - rewrite lookup_alter_eq, lookup_insert_eq. simpl.
    destruct (jwt_encode _ _ _) as [t|e]; [done|].
    simpl. by rewrite isinstance_Exception.
  - simpl. unfold datetime_add in *. by rewrite isinstance_Exception.
Qed.

Lemma create_access_token_frame now (h : gmap positive claims) data delta l :
  l ∈ dom h -> (Security.create_access_token now h data delta).2 !! l = h !! l.
Proof.
  intros Hl. rewrite <- (create_access_token_body_frame now h data delta l Hl).
  unfold Security.create_access_token. by destruct (create_access_token_body _ _ _ _).
Qed.

(** X10.  [create_access_token] fails in one way only: whatever goes
    wrong inside it -- [data] is not a [dict], the expiry leaves the range
    of [datetime], [jwt.encode] raises -- the caller gets
    [RuntimeError("JWT creation failed")]. *)
Theorem create_access_token_fails_uniformly
    (now : Z) (h : gmap positive claims) (data : positive)
    (expires_delta : option Z) :
  let out := (Security.create_access_token now h data expires_delta).1 in
  (forall e, out = Raise e -> e = Exc RuntimeError "JWT creation failed") /\
  (h !! data = None -> out = Raise (Exc RuntimeError "JWT creation failed")) /\
  (forall e,
     datetime_add now (effective_delta expires_delta) = Raise e ->
     out = Raise (Exc RuntimeError "JWT creation failed")) /\
  (forall d expire e,
     h !! data = Some d ->
     datetime_add now (effective_delta expires_delta) = Return expire ->
     jwt_encode (<["exp" := VDatetime expire]> d) SECRET_KEY ALGORITHM
       = Raise e ->
     out = Raise (Exc RuntimeError "JWT creation failed")).
Proof.
  cbv zeta. rewrite create_access_token_result.
  split; [|split; [|split]].
  - intros e. destruct (h !! data); [|by intros [= <-]].
    destruct (datetime_add _ _); [|by intros [= <-]].
    destruct (jwt_encode _ _ _); [done|by intros [= <-]].
  - by intros ->.
  - intros e ->. by destruct (h !! data).
  - intros d expire e -> -> ->. done.
Qed.

(** X11.  A zero [expires_delta] is falsy, so it selects the default
    lifetime: [create_access_token(data, timedelta(0))] does what
    [create_access_token(data)] does, and the token then expires
    [ACCESS_TOKEN_EXPIRE_MINUTES] minutes after the clock; any other
    delta, negative ones included, is added to the clock as it is. *)
Theorem zero_expires_delta_means_default
    (now : Z) (h : gmap positive claims) (data : positive) :
  Security.create_access_token now h data (Some 0) =
    Security.create_access_token now h data None /\
  (forall d expire,
     h !! data = Some d ->
     datetime_add now (ACCESS_TOKEN_EXPIRE_MINUTES * 60 * 1000000)
       = Return expire ->
     (Security.create_access_token now h data (Some 0)).1 =
     match jwt_encode (<["exp" := VDatetime expire]> d)
             SECRET_KEY ALGORITHM with
     | Return t => Return t
     | Raise _ => Raise (Exc RuntimeError "JWT creation failed")
     end) /\
  (forall delta d expire,
     delta <> 0 -> h !! data = Some d ->
     datetime_add now delta = Return expire ->
     (Security.create_access_token now h data (Some delta)).1 =
     match jwt_encode (<["exp" := VDatetime expire]> d)
             SECRET_KEY ALGORITHM with
     | Return t => Return t
     | Raise _ => Raise (Exc RuntimeError "JWT creation failed")
     end).
Proof.
  split; [done|]. split.
  - intros d expire Hd He. rewrite create_access_token_result, Hd.
    simpl effective_delta. unfold timedelta_minutes. by rewrite He.
  - intros delta d expire Hne Hd He. rewrite create_access_token_result, Hd.
    simpl effective_delta. apply Z.eqb_neq in Hne. by rewrite Hne, He.
Qed.

Lemma authenticate_user_returns db identifier password :
  exists r, authenticate_user db identifier password = Return r.
Proof.
  unfold authenticate_user.
  destruct (query_first db _) as [u|]; [|eauto].
  destruct (verify_password_total password (VStr (password_hash u)))
    as [b ->].
  destruct b; simpl; eauto.
Qed.

Lemma login_cases now (h : gmap positive claims) credentials db :
  login now h credentials db =
  match authenticate_user db (ul_username credentials)
          (VStr (ul_password credentials)) with
  | Raise e => (Raise e, h)
  | Return None => (Raise (unauthorized "Invalid username or password"), h)
  | Return (Some u) =>
      let data := fresh (dom h) in
      let h1 := <[data := {[ "sub" := VStr (str_of_int (id u)) ]}]> h in
      let out := Security.create_access_token now h1 data None in
      (t ← out.1;
       Return {[ "access_token" := VStr t; "token_type" := VStr "bearer" ]},
       out.2)
  end.
Proof.
  unfold login, authenticate_user.
  destruct (query_first db _) as [u|]; [|done].
  destruct (verify_password _ _) as [[]|e]; try done.
  simpl. by destruct (Security.create_access_token _ _ _ _).
Qed.

(** X12.  [login] refuses exactly the credentials [authenticate_user]
    refuses, with one and the same HTTP 401 "Invalid username or
    password" whether the account is unknown or the password wrong, and
    then leaves the store of [dict]s as it was; for the credentials
    [authenticate_user] accepts it goes on to issue a token. *)
Theorem login_agrees_with_authenticate_user
    (now : Z) (h : gmap positive claims) (credentials : UserLogin)
    (db : Session) :
  let auth :=
    authenticate_user db (ul_username credentials)
      (VStr (ul_password credentials)) in
  let out := login now h credentials db in
  (auth = Return None <->
   out.1 = Raise (HTTPException 401 "Invalid username or password")) /\
  (auth = Return None -> out.2 = h) /\
  (forall u,
     auth = Return (Some u) ->
     (exists response, out.1 = Return response) \/
     out.1 = Raise (Exc RuntimeError "JWT creation failed")) /\
  (forall l, l ∈ dom h -> out.2 !! l = h !! l).
Proof.
  cbv zeta. rewrite login_cases.
  destruct (authenticate_user_returns db (ul_username credentials)
              (VStr (ul_password credentials))) as [r Hr].
  rewrite Hr. destruct r as [u|].
  - cbv zeta. cbn [fst snd].
    set (h1 := <[fresh (dom h) := _]> h).
    pose proof (create_access_token_result now h1 (fresh (dom h)) None) as Hres.
    split; [|split; [done|split]].
    + split; [done|]. intros Hout. exfalso. revert Hout. rewrite Hres.
      destruct (h1 !! fresh (dom h)); [|done].
      destruct (datetime_add _ _); [|done].
      by destruct (jwt_encode _ _ _).
    + intros u' _. rewrite Hres.
      destruct (h1 !! fresh (dom h)); [|by right].
      destruct (datetime_add _ _); [|by right].
      destruct (jwt_encode _ _ _); [left; eauto|by right].
    + intros l Hl. rewrite create_access_token_frame.
      * unfold h1. rewrite lookup_insert_ne; [done|].
        intros <-. by apply (is_fresh (dom h)).
      * unfold h1. rewrite dom_insert_L. set_solver.
  - cbn [fst snd]. repeat split; done.
Qed.

End LoginFacts.

Section SubjectFacts.

Import Py PyStr PyVal PyBuiltins PyTime Env UserModel Schemas Security
       Dependencies Routers.

Context {settings : Settings} {pwd_context : CryptContext} {jwt : JwtLib}.

(** X13.  On success [login] answers with token type "bearer" and the
    token [jwt.encode] makes, under the current secret and algorithm, of
    exactly two claims: the subject [str(user.id)] and an expiry
    [ACCESS_TOKEN_EXPIRE_MINUTES] minutes after the clock. *)
Theorem login_issues_subject_and_expiry
    (now : Z) (h : gmap positive claims) (credentials : UserLogin)
    (db : Session) (u : User) (expire : Z) :
  authenticate_user db (ul_username credentials)
    (VStr (ul_password credentials)) = Return (Some u) ->
  datetime_add now (ACCESS_TOKEN_EXPIRE_MINUTES * 60 * 1000000)
    = Return expire ->
  (login now h credentials db).1 =
  match jwt_encode
          {[ "exp" := VDatetime expire; "sub" := VStr (str_of_int (id u)) ]}
          SECRET_KEY ALGORITHM with
  | Return t =>
      Return {[ "access_token" := VStr t; "token_type" := VStr "bearer" ]}
  | Raise _ => Raise (Exc RuntimeError "JWT creation failed")
  end.
Proof.
  intros Hauth He. rewrite login_cases, Hauth. cbv zeta. cbn [fst].
  rewrite create_access_token_result, lookup_insert_eq.
  simpl effective_delta. unfold timedelta_minutes. rewrite He.
  by destruct (jwt_encode _ _ _).
Qed.

(** X14.  The subject [login] issues leads back to the account: for a
    token whose decoded subject is [str(u.id)], with [u.id] an integer of
    the store, [get_current_user] returns the first row carrying that
    id. *)
Theorem guard_resolves_issued_subject
    (now : Z) (token : string) (c : claims) (db : Session)
    (l1 : list User) (u : User) (l2 : list User) :
  token <> "" ->
  jwt_decode now token SECRET_KEY [ALGORITHM] = Return c ->
  c !! "sub" = Some (VStr (str_of_int (id u))) ->
  store_int (id u) ->
  db = (l1 ++ u :: l2)%list ->
  (forall x, x ∈ l1 -> id x <> id u) ->
  get_current_user now (Some token) db = Return u.
Proof.
  intros Ht Hd Hs Hid Hdb Hl1. rewrite get_current_user_cases, Hd.
  destruct token as [|a t]; [done|].
  unfold dict_get. rewrite Hs. simpl default. cbn [truthy].
  rewrite bool_decide_eq_false_2 by apply str_of_int_nonempty.
  cbn [negb int_of]. rewrite (int_of_str_str_of_int _ Hid).
  rewrite (query_first_split db _ l1 u l2 Hdb); [done| |].
  - intros x Hx. apply bool_decide_eq_false. auto.
  - by apply bool_decide_eq_true.
Qed.


(** X16.  The guard and [verify_access_token] judge a token alike: what
    [verify_access_token] raises for a token, [get_current_user] raises
    for it too, and a token the guard accepts is one
    [verify_access_token] returns claims for, with a truthy subject. *)
Theorem guard_agrees_with_verify_access_token
    (now : Z) (token : string) (db : Session) :
  (forall e,
     verify_access_token now token = Raise e ->
     get_current_user now (Some token) db = Raise e) /\
  (forall u,
     get_current_user now (Some token) db = Return u ->
     exists c, verify_access_token now token = Return c /\
               truthy (dict_get c "sub") = true).
Proof.
  rewrite verify_access_token_cases, get_current_user_cases.
  destruct token as [|a t].
  - split; [|done].
    destruct (jwt_decode _ _ _ _) as [c|e']; [done|]. by intros e [= <-].
  - destruct (jwt_decode now (String a t) SECRET_KEY [ALGORITHM]) as [c|e'].
    + split; [done|]. intros u.
      destruct (truthy (dict_get c "sub")) eqn:Hs; [eauto|done].
    + split; [|done]. by intros e [= <-].
Qed.

End SubjectFacts.

(** ** Registration *)

Section RegistrationFacts.

Import Py PyStr PyVal PyBuiltins Env UserModel Schemas Security
       Dependencies Routers.

Context {settings : Settings} {pwd_context : CryptContext} {jwt : JwtLib}
        {email_str : EmailStr}.

Lemma query_first_None_inv (db : Session) cond :
  query_first db cond = None -> forall u, u ∈ db -> cond u = false.
Proof.
  unfold query_first. induction db as [|x db IH]; intros H u Hu.
  - by apply elem_of_nil in Hu.
  - rewrite filter_cons in H. case_decide as Hx; [done|].
    apply elem_of_cons in Hu as [->|Hu]; [by destruct (cond x)|auto].
Qed.

Lemma query_first_is_Some (db : Session) cond u :
  u ∈ db -> cond u = true -> exists u', query_first db cond = Some u'.
Proof.
  intros Hu Hc. destruct (query_first db cond) as [u'|] eqn:Hq; [eauto|].
  rewrite (query_first_None_inv db cond Hq u Hu) in Hc. done.
Qed.

(** The row [register_user] stores. *)
Lemma register_user_stored r now new_id payload (db : Session) user :
  (register_user r now new_id payload db).2 = (db ++ [user])%list ->
  (forall u, u ∈ db -> username u <> uc_username payload) /\
  (forall u, u ∈ db -> email u <> uc_email payload) /\
  hash_password r (VStr (uc_password payload)) = Return (password_hash user) /\
  id user = new_id /\ username user = uc_username payload /\
  email user = uc_email payload /\ first_name user = "Unknown" /\
  last_name user = "Unknown" /\ is_active user = true /\
  created_at user = now /\ updated_at user = now.
Proof.
  assert (Hneq : db <> (db ++ [user])%list).
  { intros H%(f_equal length). rewrite length_app in H. simpl in H. lia. }
  unfold register_user.
  destruct (query_first db _) as [?|] eqn:Hu; [by intros ?%Hneq|].
  destruct (query_first db (fun u => bool_decide (email u = _))) as [?|] eqn:He;
    [by intros ?%Hneq|].
  destruct (hash_password r _) as [h|e]; [|by intros ?%Hneq].
  cbn [snd]. intros [_ <-]%app_inj_tail.
  split; [|split; [|done]].
  - intros u Hin.
    exact (bool_decide_eq_false_1 _ (query_first_None_inv _ _ Hu u Hin)).
  - intros u Hin.
    exact (bool_decide_eq_false_1 _ (query_first_None_inv _ _ He u Hin)).
Qed.

Lemma register_user_table r now new_id payload (db : Session) :
  (register_user r now new_id payload db).2 = db \/
  exists user, (register_user r now new_id payload db).2 = (db ++ [user])%list.
Proof.
  unfold register_user.
  destruct (query_first db _); [by left|].
  destruct (query_first db _); [by left|].
  destruct (hash_password r _); [right; eauto|by left].
Qed.

(** X17.  [register_user] refuses a taken username with HTTP 400
    "Username already exists" -- also when the email is taken too -- and
    a taken email with HTTP 400 "Email already registered"; in both
    cases, and when hashing fails, the table is left as it was.  A row is
    added only when neither is taken and the password was hashed. *)
Theorem register_user_rejects_duplicates
    (r : salt) (now new_id : Z) (payload : UserCreate) (db : Session) :
  let out := register_user r now new_id payload db in
  ((exists u, u ∈ db /\ username u = uc_username payload) ->
   out = (Raise (HTTPException 400 "Username already exists"), db)) /\
  ((forall u, u ∈ db -> username u <> uc_username payload) ->
   (exists u, u ∈ db /\ email u = uc_email payload) ->
   out = (Raise (HTTPException 400 "Email already registered"), db)) /\
  (forall e,
     hash_password r (VStr (uc_password payload)) = Raise e ->
     out.2 = db) /\
  (out.2 <> db ->
   (forall u, u ∈ db -> username u <> uc_username payload) /\
   (forall u, u ∈ db -> email u <> uc_email payload) /\
   exists h, hash_password r (VStr (uc_password payload)) = Return h).
Proof.
  cbv zeta. split; [|split; [|split]].
  - intros (u & Hu & Hn). unfold register_user.
    destruct (query_first_is_Some db
                (fun u => bool_decide (username u = uc_username payload)) u Hu)
      as [u' ->]; [by apply bool_decide_eq_true|done].
  - intros Hnone (u & Hu & He). unfold register_user.
    rewrite query_first_None
      by (intros x Hx; apply bool_decide_eq_false; auto).
    destruct (query_first_is_Some db
                (fun u => bool_decide (email u = uc_email payload)) u Hu)
      as [u' ->]; [by apply bool_decide_eq_true|done].
  - intros e He. unfold register_user.
    destruct (query_first db _); [done|].
    destruct (query_first db _); [done|]. by rewrite He.
  - intros Hne.
    destruct (register_user_table r now new_id payload db) as [?|[user Hu]];
      [done|].
    apply register_user_stored in Hu as (? & ? & ? & _). eauto.
Qed.

(** X18.  [register_user] keeps the table well formed: the rows it held
    stay, in place, and if usernames and emails were unique they still
    are afterwards; so are the ids when the store hands out an unused
    one. *)
Theorem register_user_preserves_uniqueness
    (r : salt) (now new_id : Z) (payload : UserCreate) (db : Session) :
  let db' := (register_user r now new_id payload db).2 in
  db `prefix_of` db' /\
  (NoDup (username <$> db) -> NoDup (username <$> db')) /\
  (NoDup (email <$> db) -> NoDup (email <$> db')) /\
  (NoDup (id <$> db) -> (forall u, u ∈ db -> id u <> new_id) ->
   NoDup (id <$> db')).
Proof.
  cbv zeta.
  destruct (register_user_table r now new_id payload db) as [->|[user Hu]].
  { repeat split; done. }
  rewrite Hu. apply register_user_stored in Hu
    as (Hname & Hmail & _ & Hid & Hun & Hem & _).
  assert (Hfresh : forall (A : Type) (f : User -> A),
            NoDup (f <$> db) -> (forall u, u ∈ db -> f u <> f user) ->
            NoDup (f <$> (db ++ [user])%list)).
  { intros A f Hnd Hf. rewrite fmap_app. apply NoDup_app.
    split; [done|]. split; [|apply NoDup_singleton].
    intros x (u & -> & Hin)%list_elem_of_fmap Hx%list_elem_of_singleton.
    by apply (Hf u). }
  split; [by apply prefix_app_r|].
  split; [|split].
  - intros H. apply Hfresh; [done|]. intros u Hin. rewrite Hun. auto.
  - intros H. apply Hfresh; [done|]. intros u Hin. rewrite Hem. auto.
  - intros H Hnew. apply Hfresh; [done|]. intros u Hin. rewrite Hid. auto.
Qed.

(** X19.  Registration and authentication round-trip: once
    [register_user] has stored a row, [authenticate_user] with the
    registered username and password returns that row, provided no
    earlier row has this username as its email; likewise with the
    registered email, provided no earlier row has it as its username. *)
Theorem register_then_authenticate
    `{!CryptContextSound pwd_context}
    (r : salt) (now new_id : Z) (payload : UserCreate) (db : Session)
    (user : User) :
  (register_user r now new_id payload db).2 = (db ++ [user])%list ->
  ((forall u, u ∈ db -> email u <> uc_username payload) ->
   authenticate_user (db ++ [user])%list (uc_username payload)
     (VStr (uc_password payload)) = Return (Some user)) /\
  ((forall u, u ∈ db -> username u <> uc_email payload) ->
   authenticate_user (db ++ [user])%list (uc_email payload)
     (VStr (uc_password payload)) = Return (Some user)).
Proof.
  intros (Hname & Hmail & Hhash & _ & Hun & Hem & _)%register_user_stored.
  assert (Hver : verify_password (VStr (uc_password payload))
                   (VStr (password_hash user)) = Return true).
  { revert Hhash. rewrite hash_password_str.
    destruct (all_space _); [done|].
    destruct (ctx_hash r _) as [d|] eqn:Hd; [|done]. intros [= <-].
    by rewrite verify_password_str, (ctx_verify_hash _ _ _ Hd). }
  split; intros Hcross; unfold authenticate_user.
  - rewrite (query_first_split _ _ db user []); [by rewrite Hver|done| |].
    + intros x Hx. apply orb_false_iff.
      split; apply bool_decide_eq_false; auto.
    + apply orb_true_iff. left. by apply bool_decide_eq_true.
  - rewrite (query_first_split _ _ db user []); [by rewrite Hver|done| |].
    + intros x Hx. apply orb_false_iff.
      split; apply bool_decide_eq_false; auto.
    + apply orb_true_iff. right. by apply bool_decide_eq_true.
Qed.


End RegistrationFacts.

(** ** The further properties at concrete inputs *)

Section MoreInstances.

Import Py PyStr PyVal PyBuiltins PyTime Env UserModel Schemas Security
       Dependencies Routers Config Dbase Factory Demo DemoMore.

Lemma compute_calculation_outcomes_witness :
  compute_calculation {| cc_type := " Divide "; cc_a := 1; cc_b := 0 |} =
    Raise (HTTPException 400 "Division by zero") /\
  compute_calculation {| cc_type := "power"; cc_a := 2; cc_b := 3 |} =
    Raise (HTTPException 400 "Unsupported calculation type").
Proof.
  split.
  - apply (proj1 (proj2 (compute_calculation_outcomes
             {| cc_type := " Divide "; cc_a := 1; cc_b := 0 |}))).
    split; [|reflexivity]. vm_compute. set_solver.
  - apply (proj1 (compute_calculation_outcomes
             {| cc_type := "power"; cc_a := 2; cc_b := 3 |})).
    intros op. destruct op; vm_compute; set_solver.
Defined.

Lemma compute_calculation_synonyms_agree_witness :
  compute_calculation {| cc_type := "PLUS"; cc_a := 1; cc_b := 2 |} =
  compute_calculation {| cc_type := "add"; cc_a := 1; cc_b := 2 |}.
Proof.
  apply (proj2 (compute_calculation_synonyms_agree "PLUS" "add" 1 2)
           AddOperation); reflexivity.
Defined.

Lemma get_environment_mode_matches_flags_witness :
  get_environment_mode (Some "Production") = "production mode" /\
  get_environment_mode (Some " testing") = "Unknown environment".
Proof.
  split.
  - apply (proj1 (proj2 (get_environment_mode_matches_flags "Production"))).
    reflexivity.
  - apply (proj1 (proj2 (proj2 (proj2
             (get_environment_mode_matches_flags " testing"))))).
    repeat split.
Defined.

Lemma fallback_forces_sqlite_test_url_witness :
  let env : environ :=
    {[ "DATABASE_URL" := "postgresql://db/app"; "ENV" := "production" ]} in
  (_trigger_fallback_if_test_env env).2 !! "ENV" = Some "production" /\
  get_database_url env = "postgresql://db/app" /\
  get_database_url (_trigger_fallback_if_test_env env).2 = "sqlite:///./test.db".
Proof.
  intros env. split; [|split; [reflexivity|]].
  - etrans.
    + apply (proj2 (proj2 (fallback_forces_sqlite_test_url env)) "ENV"). done.
    + reflexivity.
  - apply (proj1 (proj2 (fallback_forces_sqlite_test_url env))).
Defined.

Lemma validate_password_accepts_strong_witness :
  validate_password {[ "password" := VStr "Passw0rd" ]} =
    Return {[ "password" := VStr "Passw0rd" ]} /\
  validate_password {[ "username" := VStr "carol" ]} =
    Raise (Exc ValueError "Password is required.").
Proof.
  split.
  - apply (proj1 (validate_password_accepts_strong
             {[ "password" := VStr "Passw0rd" ]}) "Passw0rd");
      [by vm_compute|].
    split; [simpl; lia|]. split; [|split].
    + exists "a"%char. split; [simpl; tauto|reflexivity].
    + exists "P"%char. split; [simpl; tauto|reflexivity].
    + exists "0"%char. split; [simpl; tauto|reflexivity].
  - apply (proj2 (validate_password_accepts_strong
             {[ "username" := VStr "carol" ]})).
    by vm_compute.
Defined.

Lemma validated_password_is_hashable_witness :
  hash_password (pwd_context := Demo.pwd_context) true (VStr "Passw0rd") =
    Return "a$Passw0rd".
Proof.
  apply (validated_password_is_hashable (pwd_context := Demo.pwd_context)
           {[ "password" := VStr "Passw0rd" ]} "Passw0rd" true);
    by vm_compute.
Defined.

Lemma set_password_follows_hash_password_witness :
  UserMethods.set_password (pwd_context := Demo.pwd_context) true alice
    (VStr "   ") =
    Raise (Exc ValueError "Password must be a non-empty string") /\
  UserMethods.set_password (pwd_context := Demo.pwd_context) true alice
    (VStr "NewPass1") =
    Return (UserMethods.with_password_hash alice "a$NewPass1").
Proof.
  split.
  - apply (proj1 (set_password_follows_hash_password
             (pwd_context := Demo.pwd_context) true alice (VStr "   "))).
    reflexivity.
  - apply (proj1 (proj2 (set_password_follows_hash_password
             (pwd_context := Demo.pwd_context) true alice (VStr "NewPass1")))).
    exists "a$NewPass1". split; reflexivity.
Defined.

Lemma set_password_then_verify_password_witness :
  UserMethods.verify_password
    (UserMethods.with_password_hash alice "a$NewPass1") (VStr "NewPass1") =
    Return true.
Proof.
  exact (set_password_then_verify_password
           (CryptContextSound0 := demo_pwd_context_sound)
           true alice (UserMethods.with_password_hash alice "a$NewPass1")
           "NewPass1" eq_refl).
Defined.

Lemma verify_password_degrades_to_false_witness :
  Security.verify_password (VInt 123) (VStr "notahash") = Return false /\
  Security.verify_password (VStr "AnyPass") (VStr "invalidhash") =
    Return false.
Proof.
  split.
  - apply (proj1 (verify_password_degrades_to_false
             (VInt 123) (VStr "notahash"))).
    by left.
  - apply (proj1 (proj2 (verify_password_degrades_to_false
             (VStr "AnyPass") (VStr "invalidhash")))
             "AnyPass" "invalidhash"
             (Exc ValueError "hash could not be identified"));
      reflexivity.
Defined.

Lemma create_access_token_fails_uniformly_witness :
  (Security.create_access_token now ∅ 1%positive None).1 =
    Raise (Exc RuntimeError "JWT creation failed") /\
  (Security.create_access_token now {[ 1%positive := {[ "sub" := VStr "1" ]} ]}
     1%positive (Some (300000000000 * 1000000))).1 =
    Raise (Exc RuntimeError "JWT creation failed").
Proof.
  split.
  - apply (proj1 (proj2 (create_access_token_fails_uniformly
             now ∅ 1%positive None))).
    by vm_compute.
  - apply (proj1 (proj2 (proj2 (create_access_token_fails_uniformly
             now {[ 1%positive := {[ "sub" := VStr "1" ]} ]} 1%positive
             (Some (300000000000 * 1000000)))))
             (Exc OverflowError "date value out of range")).
    by vm_compute.
Defined.

Lemma zero_expires_delta_means_default_witness :
  let h : gmap positive claims := {[ 1%positive := {[ "sub" := VStr "1" ]} ]} in
  (Security.create_access_token now h 1%positive (Some 0)).1 =
    Return "tok.issued" /\
  (Security.create_access_token now h 1%positive (Some (-1000000))).1 =
    Return "tok.issued".
Proof.
  intros h. split.
  - etrans.
    + apply (proj1 (proj2 (zero_expires_delta_means_default now h 1%positive))
               {[ "sub" := VStr "1" ]} (now + 1800000000));
        by vm_compute.
    + by vm_compute.
  - etrans.
    + apply (proj2 (proj2 (zero_expires_delta_means_default now h 1%positive))
               (-1000000) {[ "sub" := VStr "1" ]} (now - 1000000));
        by vm_compute.
    + by vm_compute.
Defined.

Lemma login_agrees_with_authenticate_user_witness :
  (login now ∅ {| ul_username := "alice"; ul_password := "WrongPass1" |} db).1 =
    Raise (HTTPException 401 "Invalid username or password") /\
  (login now ∅ {| ul_username := "ghost"; ul_password := "Secret123" |} db).1 =
    Raise (HTTPException 401 "Invalid username or password").
Proof.
  split.
  - apply (proj1 (proj1 (login_agrees_with_authenticate_user now ∅
             {| ul_username := "alice"; ul_password := "WrongPass1" |} db))).
    by vm_compute.
  - apply (proj1 (proj1 (login_agrees_with_authenticate_user now ∅
             {| ul_username := "ghost"; ul_password := "Secret123" |} db))).
    by vm_compute.
Defined.

Lemma login_issues_subject_and_expiry_witness :
  (login now ∅ {| ul_username := "alice@x.com"; ul_password := "Secret123" |}
     db).1 =
    Return {[ "access_token" := VStr "tok.issued";
              "token_type" := VStr "bearer" ]}.
Proof.
  etrans.
  - apply (login_issues_subject_and_expiry now ∅
             {| ul_username := "alice@x.com"; ul_password := "Secret123" |}
             db alice (now + 1800000000));
      by vm_compute.
  - by vm_compute.
Defined.

Lemma guard_resolves_issued_subject_witness :
  str_of_int (id alice) = "1" /\
  get_current_user now (Some "tok.alice") db = Return alice.
Proof.
  split; [reflexivity|].
  apply (guard_resolves_issued_subject now "tok.alice"
           {[ "sub" := VStr "1"; "exp" := VInt 2000000000 ]}
           db [] alice [bob]).
  - done.
  - by vm_compute.
  - by vm_compute.
  - unfold store_int. change (id alice) with 1. lia.
  - reflexivity.
  - intros x Hx. by apply elem_of_nil in Hx.
Defined.


Lemma guard_agrees_with_verify_access_token_witness :
  get_current_user now (Some "tok.forged") db =
    Raise (HTTPException 401 "Invalid or expired token").
Proof.
  apply (proj1 (guard_agrees_with_verify_access_token now "tok.forged" db)).
  by vm_compute.
Defined.

Lemma register_user_rejects_duplicates_witness :
  register_user (pwd_context := Demo.pwd_context) true now 3
    {| uc_first_name := "Al"; uc_last_name := "Ice"; uc_username := "alice";
       uc_email := "bob@x.com"; uc_password := "Passw0rd" |} db =
    (Raise (HTTPException 400 "Username already exists"), db) /\
  register_user (pwd_context := Demo.pwd_context) true now 3
    {| uc_first_name := "Bo"; uc_last_name := "B"; uc_username := "bobby";
       uc_email := "bob@x.com"; uc_password := "Passw0rd" |} db =
    (Raise (HTTPException 400 "Email already registered"), db).
Proof.
  split.
  - apply (proj1 (register_user_rejects_duplicates
             (pwd_context := Demo.pwd_context) true now 3 _ db)).
    exists alice. split; [by left|reflexivity].
  - apply (proj1 (proj2 (register_user_rejects_duplicates
             (pwd_context := Demo.pwd_context) true now 3 _ db))).
    + intros u [->|[->|Hu%elem_of_nil]%elem_of_cons]%elem_of_cons; done.
    + exists bob. split; [right; by left|reflexivity].
Defined.

Lemma register_user_preserves_uniqueness_witness :
  (register_user (pwd_context := Demo.pwd_context) true now 3 carol db).2 =
    [alice; bob; carol_row] /\
  NoDup (username <$>
         (register_user (pwd_context := Demo.pwd_context) true now 3 carol db).2) /\
  NoDup (id <$>
         (register_user (pwd_context := Demo.pwd_context) true now 3 carol db).2).
Proof.
  split; [reflexivity|]. split.
  - apply (proj1 (proj2 (register_user_preserves_uniqueness
             (pwd_context := Demo.pwd_context) true now 3 carol db))).
    by apply (bool_decide_unpack _); vm_compute.
  - apply (proj2 (proj2 (proj2 (register_user_preserves_uniqueness
             (pwd_context := Demo.pwd_context) true now 3 carol db)))).
    + by apply (bool_decide_unpack _); vm_compute.
    + intros u [->|[->|Hu%elem_of_nil]%elem_of_cons]%elem_of_cons; done.
Defined.

Lemma register_then_authenticate_witness :
  authenticate_user [alice; bob; carol_row] "carol" (VStr "Passw0rd") =
    Return (Some carol_row) /\
  authenticate_user [alice; bob; carol_row] "carol@x.com" (VStr "Passw0rd") =
    Return (Some carol_row).
Proof.
  destruct (register_then_authenticate
              (pwd_context := Demo.pwd_context)
              (CryptContextSound0 := demo_pwd_context_sound)
              true now 3 carol db carol_row eq_refl) as [Hname Hmail].
  split.
  - apply Hname.
    intros u [->|[->|Hu%elem_of_nil]%elem_of_cons]%elem_of_cons; done.
  - apply Hmail.
    intros u [->|[->|Hu%elem_of_nil]%elem_of_cons]%elem_of_cons; done.
Defined.


End MoreInstances.
